(** * SDR Prep Gem (app.py): the briefing requester, the customer
    reference lookup and the submit handler, as a shallow embedding.

    Python [str] values are modelled as [string] (a sequence of bytes, UTF-8
    for text outside ASCII).  The values built by the JSON decoder are the
    inductive type [json].  Streamlit calls and the HTTP request are recorded
    as a trace of [event]s; Python exceptions and [st.stop()] are the
    non-returning outcomes of the [script] monad. *)

From Stdlib Require Import String Ascii List ZArith Bool Lia DecimalString.
Import ListNotations.
Open Scope string_scope.

(** ** Python string operations used by app.py *)

Module PyStr.

(** The double quote character, [chr 34]. *)
Definition dquote : string := String (ascii_of_nat 34) EmptyString.
(** The line feed character. *)
Definition nl : string := String (ascii_of_nat 10) EmptyString.

Definition is_upper (c : ascii) : bool :=
  let n := nat_of_ascii c in (65 <=? n)%nat && (n <=? 90)%nat.

Definition lower_char (c : ascii) : ascii :=
  if is_upper c then ascii_of_nat (nat_of_ascii c + 32) else c.

(** [s.lower()]: the letters A-Z are mapped to a-z.  Bytes of 128 and above
    (the UTF-8 bytes of text outside ASCII) are left as they are. *)
Fixpoint lower (s : string) : string :=
  match s with
  | EmptyString => EmptyString
  | String c s' => String (lower_char c) (lower s')
  end.

(** [needle in hay]: [needle] occurs in [hay] as a contiguous substring. *)
Fixpoint contains (needle hay : string) : bool :=
  match hay with
  | EmptyString => prefix needle EmptyString
  | String _ hay' => prefix needle hay || contains needle hay'
  end.

(** [new.join(s)]-like behaviour of [s.replace("", new)]: [new] is put
    before every character and at the end. *)
Fixpoint intersperse (new s : string) : string :=
  match s with
  | EmptyString => new
  | String c s' => new ++ String c (intersperse new s')
  end.

(** Scan of [s.replace(old, new)] for a non-empty [old]: [skip] counts the
    characters of a match that are still to be passed over. *)
Fixpoint replace_scan (old new : string) (skip : nat) (s : string) : string :=
  match s with
  | EmptyString => EmptyString
  | String c s' =>
      match skip with
      | S k => replace_scan old new k s'
      | O =>
          if prefix old s
          then new ++ replace_scan old new (String.length old - 1) s'
          else String c (replace_scan old new 0 s')
      end
  end.

(** [s.replace(old, new)]: every non-overlapping occurrence of [old], found
    from left to right, is replaced by [new]. *)
Definition replace (old new s : string) : string :=
  match old with
  | EmptyString => intersperse new s
  | _ => replace_scan old new 0 s
  end.

(** [x or default] on strings: the empty string is falsy. *)
Definition or_else (x default : string) : string :=
  match x with
  | EmptyString => default
  | _ => x
  end.

End PyStr.

(** ** Customer reference lookup (app.py, get_customer_reference) *)

Definition instacart_reference : string :=
  "Instacart built their data-intensive applications on Snowflake, allowing them to scale to millions of users while reducing their infrastructure costs by 30%.".

Definition western_union_reference : string :=
  "Western Union leveraged Snowflake to reduce the development time for their fraud detection models by 75% and can now deploy new AI models in days instead of months.".

Definition blackrock_reference : string :=
  "BlackRock runs its Aladdin platform on Snowflake, processing trillions of dollars in financial transactions and providing clients with near real-time investment insights.".

Definition capital_one_reference : string :=
  "Capital One modernized their data stack with Snowflake to enable better customer experiences and faster innovation, all within a secure and governed environment.".

Definition get_customer_reference (use_case : string) : string :=
  let lower_case := PyStr.lower use_case in
  if PyStr.contains "application" lower_case then instacart_reference
  else if PyStr.contains "ai" lower_case || PyStr.contains "ml" lower_case
  then western_union_reference
  else if PyStr.contains "finance" lower_case then blackrock_reference
  else capital_one_reference.

(** ** Values built by the JSON decoder *)

(** The Python objects [json.loads] and [response.json()] can return: [None],
    [bool], [int], [float], [str], [list] and [dict] with [str] keys.  A float
    is identified by its [repr]; a dict is the list of its items, looked up by
    the first binding of a key. *)
#[warnings="-register-all"]
Inductive json : Type :=
| JNull
| JBool (b : bool)
| JInt (z : Z)
| JFloat (repr : string)
| JStr (s : string)
| JArr (items : list json)
| JObj (fields : list (string * json)).

(** Python exceptions the script can meet, and [st.stop()]'s StopException. *)
Inductive exn : Type :=
| KeyError
| IndexError
| TypeError
| AttributeError
| FileNotFoundError
| RequestException (detail : string)
| JSONDecodeError (detail : string)
| StopException.

(** What the decoder answers on a text. *)
Inductive decoded : Type :=
| Decoded (v : json)
| Undecodable (detail : string).

(** Calls with an effect outside the script, in the order they are made. *)
Inductive event : Type :=
| HttpPost (url : string) (payload : json)
| StError (msg : string)
| StJson (v : json)
| StSpinner (text : string)
| StBalloons
| StHeader (text : string)
| StSubheader (text : string)
| StMarkdown (text : string)
| StDivider.

Inductive outcome (A : Type) : Type :=
| Returned (a : A)
| Raised (e : exn).
Arguments Returned {A} a.
Arguments Raised {A} e.

(** A piece of script: the events it emits and how it ends. *)
Definition script (A : Type) : Type := list event * outcome A.

Definition ret {A} (a : A) : script A := ([], Returned a).
Definition raise {A} (e : exn) : script A := ([], Raised e).
Definition emit (ev : event) : script unit := ([ev], Returned tt).

Definition bind {A B} (m : script A) (k : A -> script B) : script B :=
  match m with
  | (t, Returned a) => let (t', o) := k a in ((t ++ t')%list, o)
  | (t, Raised e) => (t, Raised e)
  end.

(** [try: m except ...: handler]: [handler e] is [None] when no clause
    matches [e]. *)
Definition try_except {A} (m : script A) (handler : exn -> option (script A))
  : script A :=
  match m with
  | (t, Raised e) =>
      match handler e with
      | Some h => let (t', o) := h in ((t ++ t')%list, o)
      | None => (t, Raised e)
      end
  | _ => m
  end.

Declare Scope script_scope.
Delimit Scope script_scope with script.
Notation "x <- m ;; k" := (bind m (fun x => k))
  (at level 61, m at next level, right associativity) : script_scope.
Notation "m ;;; k" := (bind m (fun _ => k))
  (at level 61, right associativity) : script_scope.
Open Scope script_scope.

Definition trace {A} (m : script A) : list event := fst m.
Definition result {A} (m : script A) : outcome A := snd m.

(** ** Python operations on decoded values *)

Module Py.

Fixpoint dict_get (k : string) (d : list (string * json)) : option json :=
  match d with
  | [] => None
  | (k', v) :: d' => if String.eqb k k' then Some v else dict_get k d'
  end.

(** [bool(v)]. *)
Definition truthy (v : json) : bool :=
  match v with
  | JNull => false
  | JBool b => b
  | JInt z => negb (z =? 0)%Z
  | JFloat r => negb (String.eqb r "0.0" || String.eqb r "-0.0")
  | JStr s => negb (String.eqb s "")
  | JArr l => match l with [] => false | _ => true end
  | JObj d => match d with [] => false | _ => true end
  end.

Definition is_str (s : string) (v : json) : bool :=
  match v with
  | JStr s' => String.eqb s s'
  | _ => false
  end.

(** [k in v] for a [str] [k]. *)
Definition contains (k : string) (v : json) : script bool :=
  match v with
  | JObj d => ret (match dict_get k d with Some _ => true | None => false end)
  | JArr l => ret (existsb (is_str k) l)
  | JStr s => ret (PyStr.contains k s)
  | _ => raise TypeError
  end.

(** [v[k]] for a [str] [k]. *)
Definition getitem (v : json) (k : string) : script json :=
  match v with
  | JObj d => match dict_get k d with Some x => ret x | None => raise KeyError end
  | _ => raise TypeError
  end.

(** [v[0]]. *)
Definition first (v : json) : script json :=
  match v with
  | JArr l => match l with x :: _ => ret x | [] => raise IndexError end
  | JStr s =>
      match s with
      | String c _ => ret (JStr (String c EmptyString))
      | EmptyString => raise IndexError
      end
  | JObj _ => raise KeyError
  | _ => raise TypeError
  end.

(** The items a [for] loop over [v] visits. *)
Fixpoint chars (s : string) : list json :=
  match s with
  | EmptyString => []
  | String c s' => JStr (String c EmptyString) :: chars s'
  end.

Definition iter (v : json) : script (list json) :=
  match v with
  | JArr l => ret l
  | JObj d => ret (map (fun kv => JStr (fst kv)) d)
  | JStr s => ret (chars s)
  | _ => raise TypeError
  end.

(** [v.lower] and [v.replace] exist on [str] only. *)
Definition as_str (v : json) : script string :=
  match v with
  | JStr s => ret s
  | _ => raise AttributeError
  end.

End Py.

(** ** The form record and the outside world *)

Inductive status : Type := Prospect | Customer.

Definition status_str (s : status) : string :=
  match s with
  | Prospect => "Prospect"
  | Customer => "Customer"
  end.

(** [form_data]: the six fields packaged by the submit handler. *)
Record prospect : Type := {
  personaName : string;
  title : string;
  accountName : string;
  prospect_status : status;
  linkedinInfo : string;
  supportingInfo : string
}.

(** What the script sees of an HTTP response. *)
Record response : Type := {
  status_code : Z;
  reason : string;
  body : string
}.

Inductive post_result : Type :=
| ConnectionFailed (detail : string)
| Responded (r : response).

(** Streamlit secrets: no secrets file at all, or its table. *)
Inductive secrets_store : Type :=
| NoSecretsFile
| Secrets (table : list (string * string)).

Record world : Type := {
  secrets : secrets_store;
  server : string -> json -> post_result
}.

Fixpoint table_get (k : string) (t : list (string * string)) : option string :=
  match t with
  | [] => None
  | (k', v) :: t' => if String.eqb k k' then Some v else table_get k t'
  end.

(** [st.secrets[k]]. *)
Definition st_secrets (w : world) (k : string) : script string :=
  match secrets w with
  | NoSecretsFile => raise FileNotFoundError
  | Secrets t => match table_get k t with Some v => ret v | None => raise KeyError end
  end.

(** [st.stop()]: the script run ends here. *)
Definition st_stop {A} : script A := raise StopException.

(** [requests.post(url, json=payload)]. *)
Definition requests_post (w : world) (url : string) (payload : json) : script response :=
  emit (HttpPost url payload) ;;;
  match server w url payload with
  | ConnectionFailed d => raise (RequestException d)
  | Responded r => ret r
  end.

Definition string_of_Z (z : Z) : string := NilZero.string_of_int (Z.to_int z).

(** [response.raise_for_status()]: HTTPError, a RequestException, on a 4xx
    or 5xx status. *)
Definition raise_for_status (url : string) (r : response) : script unit :=
  let code := status_code r in
  if (400 <=? code)%Z && (code <? 500)%Z then
    raise (RequestException
             (string_of_Z code ++ " Client Error: " ++ reason r ++ " for url: " ++ url))
  else if (500 <=? code)%Z && (code <? 600)%Z then
    raise (RequestException
             (string_of_Z code ++ " Server Error: " ++ reason r ++ " for url: " ++ url))
  else ret tt.

(** ** The briefing requester (app.py, call_gemini) *)

Definition api_url (api_key : string) : string :=
  "https://generativelanguage.googleapis.com/v1beta/models/gemini-2.0-flash:generateContent?key="
  ++ api_key.

Definition prompt (form_data : prospect) : string :=
  PyStr.nl ++
  "        You are an expert sales strategist and coach at Snowflake, specializing in the MEDDPICC methodology. " ++ PyStr.nl ++
  "        Your task is to generate a complete pre-call briefing package for a Sales Development Representative based on the following information." ++ PyStr.nl ++
  PyStr.nl ++
  "        **Prospect Information:**" ++ PyStr.nl ++
  "        - Name: " ++ personaName form_data ++ PyStr.nl ++
  "        - Title: " ++ title form_data ++ PyStr.nl ++
  "        - Account: " ++ accountName form_data ++ PyStr.nl ++
  "        - Status: " ++ status_str (prospect_status form_data) ++ PyStr.nl ++
  "        - LinkedIn Info: " ++ linkedinInfo form_data ++ PyStr.nl ++
  "        - Other Info: " ++ supportingInfo form_data ++ PyStr.nl ++
  PyStr.nl ++
  "        Generate a JSON object with the following structure. Do not include any other text or markdown formatting." ++ PyStr.nl ++
  "    ".

Definition string_type : json := JObj [("type", JStr "STRING")].

Definition response_schema : json :=
  JObj [
    ("type", JStr "OBJECT");
    ("properties", JObj [
       ("justification", string_type);
       ("useCase", string_type);
       ("discoveryQuestions", JObj [("type", JStr "ARRAY"); ("items", string_type)]);
       ("openingStatements", JObj [
          ("type", JStr "ARRAY");
          ("items", JObj [
             ("type", JStr "OBJECT");
             ("properties", JObj [("type", string_type); ("statement", string_type)]);
             ("required", JArr [JStr "type"; JStr "statement"])])])]);
    ("required", JArr [JStr "justification"; JStr "useCase";
                       JStr "discoveryQuestions"; JStr "openingStatements"])].

Definition payload (form_data : prospect) : json :=
  JObj [
    ("contents", JArr [JObj [("role", JStr "user");
                             ("parts", JArr [JObj [("text", JStr (prompt form_data))]])]]);
    ("generationConfig", JObj [("responseMimeType", JStr "application/json");
                               ("responseSchema", response_schema)])].

Definition missing_key_msg : string :=
  "GEMINI_API_KEY not found in Streamlit Secrets. Please add it to your secrets.toml file or in the Streamlit Community Cloud settings.".
Definition invalid_structure_msg : string :=
  "Error: Invalid response structure from Gemini API.".
Definition api_call_failed_msg (e : string) : string :=
  "Error: API call failed: " ++ e.
Definition decode_failed_msg : string :=
  "Error: Failed to decode JSON from API response.".

(** [except (KeyError, FileNotFoundError)] around the secret lookup. *)
Definition missing_key_handler (e : exn) : option (script string) :=
  match e with
  | KeyError | FileNotFoundError => Some (emit (StError missing_key_msg) ;;; st_stop)
  | _ => None
  end.

(** The two [except] clauses around the request, in their order. *)
Definition api_failure_handler (e : exn) : option (script json) :=
  match e with
  | RequestException d => Some (emit (StError (api_call_failed_msg d)) ;;; ret JNull)
  | JSONDecodeError _ => Some (emit (StError decode_failed_msg) ;;; ret JNull)
  | _ => None
  end.

Section Requester.

(** The JSON decoder behind [json.loads] and [response.json()]. *)
Variable json_decoder : string -> decoded.

(** [response.json()]: an undecodable body raises requests' JSONDecodeError,
    an InvalidJSONError and so a RequestException. *)
Definition response_json (r : response) : script json :=
  match json_decoder (body r) with
  | Decoded v => ret v
  | Undecodable d => raise (RequestException d)
  end.

(** [json.loads(x)]: [x] has to be a [str]. *)
Definition json_loads (x : json) : script json :=
  match x with
  | JStr t =>
      match json_decoder t with
      | Decoded v => ret v
      | Undecodable d => raise (JSONDecodeError d)
      end
  | _ => raise TypeError
  end.

(** [result['candidates'][0]['content']['parts'][0]['text']]. *)
Definition candidate_text (result : json) : script json :=
  cands <- Py.getitem result "candidates" ;;
  cand <- Py.first cands ;;
  content <- Py.getitem cand "content" ;;
  parts <- Py.getitem content "parts" ;;
  part <- Py.first parts ;;
  Py.getitem part "text".

(** ['candidates' in result and result['candidates']], as a condition. *)
Definition has_candidates (result : json) : script bool :=
  present <- Py.contains "candidates" result ;;
  if present then
    cands <- Py.getitem result "candidates" ;;
    ret (Py.truthy cands)
  else ret false.

(** Lines 76-82: the branch on the envelope. *)
Definition read_envelope (result : json) : script json :=
  ok <- has_candidates result ;;
  if ok then
    raw_json <- candidate_text result ;;
    json_loads raw_json
  else
    emit (StError invalid_structure_msg) ;;;
    emit (StJson result) ;;;
    ret JNull.

(** The value returned is the decoded payload, or [JNull] for [None]. *)
Definition call_gemini (w : world) (form_data : prospect) : script json :=
  api_key <- try_except (st_secrets w "GEMINI_API_KEY") missing_key_handler ;;
  let url := api_url api_key in
  try_except
    (response <- requests_post w url (payload form_data) ;;
     raise_for_status url response ;;;
     result <- response_json response ;;
     read_envelope result)
    api_failure_handler.

End Requester.

(** ** The submit handler (app.py, main logic) *)

Definition spinner_text : string :=
  "✨ The Gem is consulting the AI... please wait.".
Definition not_provided : string := "Not provided.".

(** The markdown of the at-a-glance intel section. *)
Definition intel_markdown (form_data : prospect) : string :=
  PyStr.nl ++
  "        - **Persona:** " ++ personaName form_data ++ ", " ++ title form_data ++ PyStr.nl ++
  "        - **Account:** " ++ accountName form_data ++ " ("
    ++ status_str (prospect_status form_data) ++ ")" ++ PyStr.nl ++
  "        - **LinkedIn Intel:** "
    ++ PyStr.or_else (linkedinInfo form_data) not_provided ++ PyStr.nl ++
  "        - **Key Trigger Intel:** "
    ++ PyStr.or_else (supportingInfo form_data) not_provided ++ PyStr.nl ++
  "        ".

(** [s.replace('[Persona Name]', personaName).replace('[SDR Name]', '[Your Name]')]. *)
Definition substitute_placeholders (form_data : prospect) (s : string) : string :=
  PyStr.replace "[SDR Name]" "[Your Name]"
    (PyStr.replace "[Persona Name]" (personaName form_data) s).

Definition is_render_event (ev : event) : bool :=
  match ev with
  | StBalloons | StHeader _ | StSubheader _ | StMarkdown _ | StDivider => true
  | _ => false
  end.

(** The renderer has run: some briefing output was emitted. *)
Definition rendered (t : list event) : bool := existsb is_render_event t.

Definition is_http_post (ev : event) : bool :=
  match ev with
  | HttpPost _ _ => true
  | _ => false
  end.

(** Number of HTTP requests sent. *)
Definition network_calls (t : list event) : nat :=
  List.length (filter is_http_post t).

Section Handler.

Variable json_decoder : string -> decoded.

(** [str(v)] for a decoded value that is not a [str], as an f-string
    prints it. *)
Variable py_repr : json -> string.

Definition format_value (v : json) : string :=
  match v with
  | JStr s => s
  | _ => py_repr v
  end.

(** One pass of the loop over the opening statements: the line added to
    [openers_text]. *)
Definition opener_line (form_data : prospect) (opener : json) : script string :=
  raw <- Py.getitem opener "statement" ;;
  s <- Py.as_str raw ;;
  let statement := substitute_placeholders form_data s in
  ty <- Py.getitem opener "type" ;;
  ret ("- **" ++ format_value ty ++ ":** " ++ PyStr.dquote ++ statement
         ++ PyStr.dquote ++ PyStr.nl).

Fixpoint openers_loop (form_data : prospect) (openers : list json)
         (openers_text : string) : script string :=
  match openers with
  | [] => ret openers_text
  | opener :: rest =>
      line <- opener_line form_data opener ;;
      openers_loop form_data rest (openers_text ++ line)
  end.

Fixpoint questions_loop (questions : list json) (questions_text : string) : string :=
  match questions with
  | [] => questions_text
  | question :: rest =>
      questions_loop rest (questions_text ++ "- " ++ format_value question ++ PyStr.nl)
  end.

(** The body of [if ai_data:]. *)
Definition render (form_data : prospect) (ai_data : json) : script unit :=
  emit StBalloons ;;;
  emit (StHeader ("Pre-Call Briefing: " ++ personaName form_data ++ " at "
                    ++ accountName form_data)) ;;;
  emit (StSubheader "1. At-a-Glance Intel") ;;;
  emit (StMarkdown (intel_markdown form_data)) ;;;
  emit StDivider ;;;
  emit (StSubheader "2. The 'Why You, Why Now'") ;;;
  justification <- Py.getitem ai_data "justification" ;;
  emit (StMarkdown ("**✨ Justification:** *" ++ format_value justification ++ "*")) ;;;
  use_case <- Py.getitem ai_data "useCase" ;;
  emit (StMarkdown ("**✨ Recommended Use Case:** " ++ format_value use_case)) ;;;
  use_case <- Py.getitem ai_data "useCase" ;;
  use_case <- Py.as_str use_case ;;
  emit (StMarkdown ("**- Relevant Customer Reference:** "
                      ++ get_customer_reference use_case)) ;;;
  emit StDivider ;;;
  emit (StSubheader "3. Conversation Toolkit") ;;;
  emit (StMarkdown "##### ✨ Powerful Opening Statements") ;;;
  openers <- Py.getitem ai_data "openingStatements" ;;
  openers <- Py.iter openers ;;
  openers_text <- openers_loop form_data openers "" ;;
  emit (StMarkdown openers_text) ;;;
  emit (StMarkdown "##### ✨ MEDDPICC Discovery Questions") ;;;
  questions <- Py.getitem ai_data "discoveryQuestions" ;;
  questions <- Py.iter questions ;;
  emit (StMarkdown (questions_loop questions "")).

(** The body of [if submit_button:]. *)
Definition submit_handler (w : world) (form_data : prospect) : script unit :=
  emit (StSpinner spinner_text) ;;;
  ai_data <- call_gemini json_decoder w form_data ;;
  if Py.truthy ai_data then render form_data ai_data else ret tt.

End Handler.

(** ** A reference JSON decoder

    [RefJson.loads] reads a JSON text the way Python's [json] module does:
    blanks are space, tab, line feed and carriage return; a repeated key keeps
    its first position and its last value; [NaN], [Infinity] and [-Infinity]
    are accepted; control characters inside a string are refused.  A number
    with a fraction or an exponent becomes a binary64 float in Python; that
    rounding is outside this decoder, which handles integers only and answers
    [Undecodable] on such a literal.  The requester is stated for any decoder;
    this one runs it on concrete envelopes. *)

Module RefJson.

Definition code (c : ascii) : nat := nat_of_ascii c.

Definition is_ws (c : ascii) : bool :=
  let n := code c in
  Nat.eqb n 32 || Nat.eqb n 9 || Nat.eqb n 10 || Nat.eqb n 13.

Fixpoint skip_ws (s : string) : string :=
  match s with
  | String c s' => if is_ws c then skip_ws s' else s
  | EmptyString => s
  end.

Definition digit (c : ascii) : option Z :=
  let n := code c in
  if (48 <=? n)%nat && (n <=? 57)%nat then Some (Z.of_nat (n - 48)) else None.

Definition hex_digit (c : ascii) : option Z :=
  let n := code c in
  if (48 <=? n)%nat && (n <=? 57)%nat then Some (Z.of_nat (n - 48))
  else if (65 <=? n)%nat && (n <=? 70)%nat then Some (Z.of_nat (n - 55))
  else if (97 <=? n)%nat && (n <=? 102)%nat then Some (Z.of_nat (n - 87))
  else None.

(** The decimal digits at the head of [s], read onto [acc]. *)
Fixpoint digits (acc : Z) (s : string) : Z * string :=
  match s with
  | String c s' =>
      match digit c with
      | Some d => digits (10 * acc + d) s'
      | None => (acc, s)
      end
  | EmptyString => (acc, s)
  end.

Definition starts_with_digit (s : string) : bool :=
  match s with
  | String c _ => match digit c with Some _ => true | None => false end
  | EmptyString => false
  end.

(** A fraction or an exponent follows the integer part. *)
Definition float_tail (s : string) : bool :=
  match s with
  | String c s' =>
      if Ascii.eqb c "."%char then starts_with_digit s'
      else if Ascii.eqb c "e"%char || Ascii.eqb c "E"%char then
        match s' with
        | String c' s'' =>
            if Ascii.eqb c' "+"%char || Ascii.eqb c' "-"%char
            then starts_with_digit s''
            else starts_with_digit s'
        | EmptyString => false
        end
      else false
  | EmptyString => false
  end.

(** [0] or a digit string without a leading zero. *)
Definition natural (s : string) : option (Z * string) :=
  match s with
  | String c s' =>
      match digit c with
      | Some 0%Z => Some (0%Z, s')
      | Some d => Some (digits d s')
      | None => None
      end
  | EmptyString => None
  end.

Definition number (s : string) : option (json * string) :=
  let signed :=
    match s with
    | String c s' =>
        if Ascii.eqb c "-"%char
        then match natural s' with
             | Some (n, r) => Some ((- n)%Z, r)
             | None => None
             end
        else natural s
    | EmptyString => None
    end in
  match signed with
  | Some (z, r) => if float_tail r then None else Some (JInt z, r)
  | None => None
  end.

Definition byte (z : Z) : ascii := ascii_of_nat (Z.to_nat z).

(** UTF-8 bytes of a code point. *)
Definition utf8 (cp : Z) : string :=
  if (cp <? 128)%Z then String (byte cp) EmptyString
  else if (cp <? 2048)%Z then
    String (byte (192 + cp / 64)) (String (byte (128 + cp mod 64)) EmptyString)
  else if (cp <? 65536)%Z then
    String (byte (224 + cp / 4096))
      (String (byte (128 + (cp / 64) mod 64))
         (String (byte (128 + cp mod 64)) EmptyString))
  else
    String (byte (240 + cp / 262144))
      (String (byte (128 + (cp / 4096) mod 64))
         (String (byte (128 + (cp / 64) mod 64))
            (String (byte (128 + cp mod 64)) EmptyString))).

(** Four hexadecimal digits. *)
Definition hex4 (s : string) : option (Z * string) :=
  match s with
  | String a (String b (String c (String d r))) =>
      match hex_digit a, hex_digit b, hex_digit c, hex_digit d with
      | Some x, Some y, Some z, Some w =>
          Some ((((x * 16 + y) * 16 + z) * 16 + w)%Z, r)
      | _, _, _, _ => None
      end
  | _ => None
  end.

(** A low surrogate written as a second escape. *)
Definition low_surrogate (s : string) : option (Z * string) :=
  match s with
  | String b (String u r) =>
      if Ascii.eqb b "\"%char && Ascii.eqb u "u"%char then
        match hex4 r with
        | Some (lo, r') =>
            if (56320 <=? lo)%Z && (lo <=? 57343)%Z then Some (lo, r') else None
        | None => None
        end
      else None
  | _ => None
  end.

(** The code point of an escape, after its [u]. *)
Definition unicode_escape (s : string) : option (Z * string) :=
  match hex4 s with
  | Some (hi, r) =>
      if (55296 <=? hi)%Z && (hi <=? 56319)%Z then
        match low_surrogate r with
        | Some (lo, r') => Some ((65536 + (hi - 55296) * 1024 + (lo - 56320))%Z, r')
        | None => Some (hi, r)
        end
      else Some (hi, r)
  | None => None
  end.

Definition simple_escape (c : ascii) : option ascii :=
  let n := code c in
  if Nat.eqb n 34 || Nat.eqb n 92 || Nat.eqb n 47 then Some c
  else if Ascii.eqb c "b"%char then Some (ascii_of_nat 8)
  else if Ascii.eqb c "f"%char then Some (ascii_of_nat 12)
  else if Ascii.eqb c "n"%char then Some (ascii_of_nat 10)
  else if Ascii.eqb c "r"%char then Some (ascii_of_nat 13)
  else if Ascii.eqb c "t"%char then Some (ascii_of_nat 9)
  else None.

(** The characters of a string literal after its opening quote. *)
Fixpoint string_body (fuel : nat) (acc : string) (s : string) : option (string * string) :=
  match fuel with
  | O => None
  | S fuel' =>
      match s with
      | EmptyString => None
      | String c s' =>
          if Nat.eqb (code c) 34 then Some (acc, s')
          else if Nat.eqb (code c) 92 then
            match s' with
            | EmptyString => None
            | String e s'' =>
                if Ascii.eqb e "u"%char then
                  match unicode_escape s'' with
                  | Some (cp, r) => string_body fuel' (acc ++ utf8 cp) r
                  | None => None
                  end
                else
                  match simple_escape e with
                  | Some x => string_body fuel' (acc ++ String x EmptyString) s''
                  | None => None
                  end
            end
          else if (code c <? 32)%nat then None
          else string_body fuel' (acc ++ String c EmptyString) s'
      end
  end.

(** A string literal, opening quote included. *)
Definition string_literal (s : string) : option (string * string) :=
  match s with
  | String c s' =>
      if Nat.eqb (code c) 34 then string_body (String.length s) EmptyString s' else None
  | EmptyString => None
  end.

Definition keyword (k : string) (v : json) (s : string) : option (json * string) :=
  if prefix k s
  then Some (v, substring (String.length k) (String.length s - String.length k) s)
  else None.

(** [d[k] = v] on the item list of a dict. *)
Fixpoint dict_set (k : string) (v : json) (d : list (string * json))
  : list (string * json) :=
  match d with
  | [] => [(k, v)]
  | (k', v') :: d' =>
      if String.eqb k k' then (k, v) :: d' else (k', v') :: dict_set k v d'
  end.

Definition expect (n : nat) (s : string) : option string :=
  match s with
  | String c s' => if Nat.eqb (code c) n then Some s' else None
  | EmptyString => None
  end.

Fixpoint value (fuel : nat) (s : string) {struct fuel} : option (json * string) :=
  match fuel with
  | O => None
  | S fuel' =>
      match s with
      | EmptyString => None
      | String c s' =>
          let n := code c in
          if Nat.eqb n 123 then
            let r := skip_ws s' in
            match expect 125 r with
            | Some r' => Some (JObj [], r')
            | None => members fuel' [] r
            end
          else if Nat.eqb n 91 then
            let r := skip_ws s' in
            match expect 93 r with
            | Some r' => Some (JArr [], r')
            | None => elements fuel' [] r
            end
          else if Nat.eqb n 34 then
            match string_literal s with
            | Some (x, r) => Some (JStr x, r)
            | None => None
            end
          else if Ascii.eqb c "n"%char then keyword "null" JNull s
          else if Ascii.eqb c "t"%char then keyword "true" (JBool true) s
          else if Ascii.eqb c "f"%char then keyword "false" (JBool false) s
          else if Ascii.eqb c "N"%char then keyword "NaN" (JFloat "nan") s
          else if Ascii.eqb c "I"%char then keyword "Infinity" (JFloat "inf") s
          else if prefix "-Infinity" s then keyword "-Infinity" (JFloat "-inf") s
          else number s
      end
  end
with elements (fuel : nat) (acc : list json) (s : string) {struct fuel}
  : option (json * string) :=
  match fuel with
  | O => None
  | S fuel' =>
      match value fuel' s with
      | Some (v, r) =>
          let r := skip_ws r in
          match expect 44 r with
          | Some r' => elements fuel' (acc ++ [v])%list (skip_ws r')
          | None =>
              match expect 93 r with
              | Some r' => Some (JArr (acc ++ [v])%list, r')
              | None => None
              end
          end
      | None => None
      end
  end
with members (fuel : nat) (acc : list (string * json)) (s : string) {struct fuel}
  : option (json * string) :=
  match fuel with
  | O => None
  | S fuel' =>
      match string_literal s with
      | Some (k, r) =>
          match expect 58 (skip_ws r) with
          | Some r =>
              match value fuel' (skip_ws r) with
              | Some (v, r) =>
                  let r := skip_ws r in
                  match expect 44 r with
                  | Some r' => members fuel' (dict_set k v acc) (skip_ws r')
                  | None =>
                      match expect 125 r with
                      | Some r' => Some (JObj (dict_set k v acc), r')
                      | None => None
                      end
                  end
              | None => None
              end
          | None => None
          end
      | None => None
      end
  end.

(** [str(v)] for decoded values; a [str] inside a list or a dict is shown
    between single quotes, which is what Python does when the text has no
    quote, backslash or unprintable character. *)
Fixpoint repr (v : json) : string :=
  match v with
  | JNull => "None"
  | JBool true => "True"
  | JBool false => "False"
  | JInt z => string_of_Z z
  | JFloat r => r
  | JStr x => "'" ++ x ++ "'"
  | JArr l =>
      "[" ++
      (fix items (l : list json) : string :=
         match l with
         | [] => ""
         | x :: l' =>
             match l' with
             | [] => repr x
             | _ => repr x ++ ", " ++ items l'
             end
         end) l ++ "]"
  | JObj d =>
      "{" ++
      (fix items (d : list (string * json)) : string :=
         match d with
         | [] => ""
         | (k, x) :: d' =>
             match d' with
             | [] => "'" ++ k ++ "': " ++ repr x
             | _ => "'" ++ k ++ "': " ++ repr x ++ ", " ++ items d'
             end
         end) d ++ "}"
  end.

Definition loads (s : string) : decoded :=
  match value (2 * String.length s + 2) (skip_ws s) with
  | Some (v, r) =>
      match skip_ws r with
      | EmptyString => Decoded v
      | _ => Undecodable "Extra data"
      end
  | None => Undecodable "Expecting value"
  end.

End RefJson.


(** ** Vocabulary of the specification *)

(** The four failures of the requester, by the names the specification gives
    to the four [st.error] reports of [call_gemini]. *)
Inductive failure : Type :=
| ConfigurationError
| NetworkError
| MalformedResponse
| DecodeError.

Definition failure_of_msg (msg : string) : option failure :=
  if String.eqb msg missing_key_msg then Some ConfigurationError
  else if String.eqb msg invalid_structure_msg then Some MalformedResponse
  else if String.eqb msg decode_failed_msg then Some DecodeError
  else if prefix "Error: API call failed: " msg then Some NetworkError
  else None.

(** The failures reported along a trace. *)
Fixpoint reported (t : list event) : list failure :=
  match t with
  | [] => []
  | StError msg :: t' =>
      match failure_of_msg msg with
      | Some f => f :: reported t'
      | None => reported t'
      end
  | _ :: t' => reported t'
  end.

(** The API key of the process-wide configuration, when there is one. *)
Definition configured_key (w : world) : option string :=
  match secrets w with
  | NoSecretsFile => None
  | Secrets t => table_get "GEMINI_API_KEY" t
  end.

(** A status outside 4xx and 5xx. *)
Definition http_ok (r : response) : bool :=
  negb ((400 <=? status_code r)%Z && (status_code r <? 600)%Z).

(** The nested content/parts/text structure of a candidate: the value found
    at [content.parts[0].text], when every level is there. *)
Definition nested_text (cand : json) : option json :=
  match cand with
  | JObj c =>
      match Py.dict_get "content" c with
      | Some (JObj content) =>
          match Py.dict_get "parts" content with
          | Some (JArr (JObj part :: _)) => Py.dict_get "text" part
          | _ => None
          end
      | _ => None
      end
  | _ => None
  end.

Definition has_key (k : string) (d : list (string * json)) : bool :=
  match Py.dict_get k d with
  | Some _ => true
  | None => false
  end.

(** The four fields of a BriefingResult are all present. *)
Definition has_required_fields (v : json) : bool :=
  match v with
  | JObj d =>
      has_key "justification" d && has_key "useCase" d
      && has_key "discoveryQuestions" d && has_key "openingStatements" d
  | _ => false
  end.

(** ** Sample inputs *)

Module Sample.

Definition q : string := PyStr.dquote.

Definition jane : prospect := {|
  personaName := "Jane Doe";
  title := "VP of Engineering";
  accountName := "InnovateFin";
  prospect_status := Prospect;
  linkedinInfo := "";
  supportingInfo := "Hiring data scientists."
|}.

(** A world that holds the key [k] and whose server answers every request
    with status 200 and the given body. *)
Definition answering (k body : string) : world := {|
  secrets := Secrets [("GEMINI_API_KEY", k)];
  server := fun _ _ => Responded {| status_code := 200; reason := "OK"; body := body |}
|}.

(** A world without the key: the secrets table holds something else. *)
Definition keyless : world := {|
  secrets := Secrets [("OTHER_KEY", "x")];
  server := fun _ _ => Responded {| status_code := 200; reason := "OK"; body := "{}" |}
|}.

(** The envelope text whose first candidate carries the JSON literal
    [text_literal] at content.parts[0].text. *)
Definition envelope_with (text_literal : string) : string :=
  "{" ++ q ++ "candidates" ++ q ++ ": [{" ++ q ++ "content" ++ q ++ ": {"
  ++ q ++ "parts" ++ q ++ ": [{" ++ q ++ "text" ++ q ++ ": " ++ text_literal
  ++ "}]}}]}".


(** The JSON string literal whose content is the text
    [{"justification": "x"}]. *)
Definition partial_payload_literal : string :=
  q ++ "{\" ++ q ++ "justification\" ++ q ++ ": \" ++ q ++ "x\" ++ q ++ "}" ++ q.


(** An envelope whose first candidate is the number 5. *)
Definition number_candidate_body : string :=
  "{" ++ q ++ "candidates" ++ q ++ ": [5]}".

(** An envelope whose first candidate has no content. *)
Definition empty_candidate_body : string :=
  "{" ++ q ++ "candidates" ++ q ++ ": [{" ++ q ++ "finishReason" ++ q ++ ": "
  ++ q ++ "SAFETY" ++ q ++ "}]}".

(** The JSON string literal of a complete briefing whose use case is
    "AI risk models". *)
Definition full_payload_literal : string :=
  q ++ "{\" ++ q ++ "justification\" ++ q ++ ": \" ++ q ++ "Scaling risk models\" ++ q
  ++ ", \" ++ q ++ "useCase\" ++ q ++ ": \" ++ q ++ "AI risk models\" ++ q
  ++ ", \" ++ q ++ "discoveryQuestions\" ++ q ++ ": [\" ++ q ++ "Q1\" ++ q
  ++ ", \" ++ q ++ "Q2\" ++ q ++ "]"
  ++ ", \" ++ q ++ "openingStatements\" ++ q ++ ": [{\" ++ q ++ "type\" ++ q
  ++ ": \" ++ q ++ "Direct\" ++ q ++ ", \" ++ q ++ "statement\" ++ q ++ ": \" ++ q
  ++ "Hi [Persona Name], this is [SDR Name].\" ++ q ++ "}]}" ++ q.

End Sample.

(** ** The ways the requester can end *)

(** Every end of [call_gemini] in a world [w] on a record [form_data]: the
    stop on a missing key, or one request followed by a reported failure with
    [None] returned, by the decoded value, or by an exception of the
    subscripting that no [except] clause catches. *)
Inductive requester_end (w : world) (form_data : prospect) : script json -> Prop :=
| end_no_key :
    configured_key w = None ->
    requester_end w form_data ([StError missing_key_msg], Raised StopException)
| end_call_failed (k detail : string) :
    configured_key w = Some k ->
    requester_end w form_data
      ([HttpPost (api_url k) (payload form_data);
        StError (api_call_failed_msg detail)], Returned JNull)
| end_invalid_structure (k : string) (envelope : json) :
    configured_key w = Some k ->
    requester_end w form_data
      ([HttpPost (api_url k) (payload form_data);
        StError invalid_structure_msg; StJson envelope], Returned JNull)
| end_decode_failed (k : string) :
    configured_key w = Some k ->
    requester_end w form_data
      ([HttpPost (api_url k) (payload form_data);
        StError decode_failed_msg], Returned JNull)
| end_value (k : string) (v : json) :
    configured_key w = Some k ->
    requester_end w form_data
      ([HttpPost (api_url k) (payload form_data)], Returned v)
| end_uncaught (k : string) (e : exn) :
    configured_key w = Some k ->
    e = KeyError \/ e = IndexError \/ e = TypeError ->
    requester_end w form_data
      ([HttpPost (api_url k) (payload form_data)], Raised e).

(** What the branch on the envelope can do: report the invalid structure,
    return a decoded value, or raise without a report. *)
Inductive envelope_end (envelope : json) : script json -> Prop :=
| env_invalid :
    envelope_end envelope
      ([StError invalid_structure_msg; StJson envelope], Returned JNull)
| env_value (v : json) : envelope_end envelope ([], Returned v)
| env_undecodable (detail : string) :
    envelope_end envelope ([], Raised (JSONDecodeError detail))
| env_uncaught (e : exn) :
    e = KeyError \/ e = IndexError \/ e = TypeError ->
    envelope_end envelope ([], Raised e).

(** A step of subscripting or testing: it emits nothing, and raises nothing
    but a KeyError, an IndexError or a TypeError. *)
Definition lookup_step {A} (m : script A) : Prop :=
  (exists a : A, m = ([], Returned a))
  \/ (exists e : exn, m = ([], Raised e)
                     /\ (e = KeyError \/ e = IndexError \/ e = TypeError)).

(** The values a [for] loop or an [in] test accepts. *)
Definition iterable (v : json) : bool :=
  match v with
  | JStr _ | JArr _ | JObj _ => true
  | _ => false
  end.

(** The value is a [str]. *)
Definition is_text (v : json) : bool :=
  match v with
  | JStr _ => true
  | _ => false
  end.

(** ** More sample worlds *)

Module Scenario.

(** A world with the key [k] whose server cannot be reached. *)
Definition unreachable (k detail : string) : world := {|
  secrets := Secrets [("GEMINI_API_KEY", k)];
  server := fun _ _ => ConnectionFailed detail
|}.


(** A world without any secrets file. *)
Definition no_secrets_file : world := {|
  secrets := NoSecretsFile;
  server := fun _ _ => ConnectionFailed "unused"
|}.

(** The envelope text with an empty candidates list. *)
Definition empty_candidates_body : string :=
  "{" ++ Sample.q ++ "candidates" ++ Sample.q ++ ": []}".

(** The JSON string literal whose content is the text [{}]. *)
Definition empty_payload_literal : string := Sample.q ++ "{}" ++ Sample.q.


(** Briefing data whose second opener has no statement. *)
Definition broken_opener_briefing : list (string * json) :=
  [("justification", JStr "Scaling risk models");
   ("useCase", JStr "AI risk models");
   ("discoveryQuestions", JArr [JStr "Q1"]);
   ("openingStatements",
    JArr [JObj [("type", JStr "Direct"); ("statement", JStr "Hello.")];
          JObj [("type", JStr "Casual")]])].

End Scenario.

(** * Properties *)

(** ** The string operations on small inputs *)

Example replace_all_occurrences : PyStr.replace "ab" "X" "abcabab" = "XcXX".
Proof. reflexivity. Qed.

Example replace_does_not_overlap : PyStr.replace "aa" "b" "aaa" = "ba".
Proof. reflexivity. Qed.

Example replace_empty_pattern : PyStr.replace "" "-" "abc" = "-a-b-c-".
Proof. reflexivity. Qed.

Example reference_default :
  get_customer_reference "general productivity" = capital_one_reference.
Proof. reflexivity. Qed.

Example reference_finance :
  get_customer_reference "FINANCE ops" = blackrock_reference.
Proof. reflexivity. Qed.

Example reference_ml :
  get_customer_reference "AutoML pipelines" = western_union_reference.
Proof. reflexivity. Qed.

(** The whole pipeline on a complete briefing: the header, the AI/ML
    reference for the use case "AI risk models", the opener with its
    placeholders replaced and the questions in the order received. *)
Example end_to_end_briefing :
  let m := submit_handler RefJson.loads RefJson.repr
             (Sample.answering "k" (Sample.envelope_with Sample.full_payload_literal))
             Sample.jane in
  result m = Returned tt
  /\ nth_error (trace m) 3 = Some (StHeader "Pre-Call Briefing: Jane Doe at InnovateFin")
  /\ nth_error (trace m) 10
     = Some (StMarkdown ("**- Relevant Customer Reference:** " ++ western_union_reference))
  /\ nth_error (trace m) 14
     = Some (StMarkdown ("- **Direct:** " ++ PyStr.dquote
                           ++ "Hi Jane Doe, this is [Your Name]." ++ PyStr.dquote
                           ++ PyStr.nl))
  /\ nth_error (trace m) 16
     = Some (StMarkdown ("- Q1" ++ PyStr.nl ++ "- Q2" ++ PyStr.nl))
  /\ List.length (trace m) = 17.
Proof.
  vm_compute. repeat split; reflexivity.
Qed.

Example http_error_is_reported :
  let w := {| secrets := Secrets [("GEMINI_API_KEY", "k")];
              server := fun _ _ =>
                Responded {| status_code := 404; reason := "Not Found"; body := "" |} |} in
  call_gemini RefJson.loads w Sample.jane
  = ([HttpPost (api_url "k") (payload Sample.jane);
      StError ("Error: API call failed: 404 Client Error: Not Found for url: "
                 ++ api_url "k")],
     Returned JNull).
Proof.
  vm_compute. reflexivity.
Qed.

(** ** Substring search *)

Section Substrings.

Import PyStr.

Lemma lower_app (a b : string) : lower (a ++ b) = lower a ++ lower b.
Proof.
  induction a as [|c a IH]; simpl.
  - reflexivity.
  - now rewrite IH.
Qed.

Lemma prefix_app (k b : string) : prefix k (k ++ b) = true.
Proof.
  induction k as [|c k IH]; simpl.
  - now destruct b.
  - destruct (ascii_dec c c) as [_|ne]; [exact IH | now elim ne].
Qed.

Lemma contains_of_prefix (k h : string) : prefix k h = true -> contains k h = true.
Proof.
  intros Hp. destruct h as [|c h]; cbn [contains].
  - exact Hp.
  - rewrite Hp. reflexivity.
Qed.

Lemma contains_app_l (k a h : string) :
  contains k h = true -> contains k (a ++ h) = true.
Proof.
  intros Hc. induction a as [|c a IH]; cbn [append contains].
  - exact Hc.
  - rewrite IH. apply orb_true_r.
Qed.

Lemma contains_infix (k a b : string) : contains k (a ++ k ++ b) = true.
Proof.
  apply contains_app_l, contains_of_prefix, prefix_app.
Qed.

End Substrings.

(** ** The customer reference lookup *)


Lemma reference_is_canned (use_case : string) :
  In (get_customer_reference use_case)
     [instacart_reference; western_union_reference;
      blackrock_reference; capital_one_reference].
Proof.
  unfold get_customer_reference.
  destruct (PyStr.contains "application" _); [now left|].
  destruct (PyStr.contains "ai" _ || PyStr.contains "ml" _); [now right; left|].
  destruct (PyStr.contains "finance" _); [now right; right; left|].
  now right; right; right; left.
Qed.


(** C8: the lookup is total and deterministic.  Every use case string has a
    reference sentence, one of the four canned ones, and it is the only
    sentence the lookup gives for that string. *)
Theorem C8_reference_total_deterministic :
  forall use_case : string,
  exists sentence : string,
    get_customer_reference use_case = sentence
    /\ In sentence [instacart_reference; western_union_reference;
                    blackrock_reference; capital_one_reference]
    /\ (forall other : string,
          get_customer_reference use_case = other -> other = sentence).
Proof.
  intros use_case. exists (get_customer_reference use_case).
  split; [reflexivity|]. split.
  - apply reference_is_canned.
  - intros other H. now symmetry.
Qed.

(** C9: keywords are matched as raw substrings of the lowered text, not as
    words.  A use case that holds the letters "ai" in any case and at any
    place, inside a longer word too, and does not hold "application", gets
    the AI/ML (Western Union) sentence. *)
Theorem C9_ai_inside_a_word (before letters after : string) :
  PyStr.lower letters = "ai" ->
  PyStr.contains "application" (PyStr.lower (before ++ letters ++ after)) = false ->
  get_customer_reference (before ++ letters ++ after) = western_union_reference.
Proof.
  intros Hai Happ. unfold get_customer_reference.
  rewrite Happ.
  rewrite !lower_app, Hai, contains_infix.
  reflexivity.
Qed.

(** "retail analytics" holds "ai" inside "retail". *)
Lemma C9_retail_analytics :
  PyStr.lower "ai" = "ai"
  /\ PyStr.contains "application" (PyStr.lower ("ret" ++ "ai" ++ "l analytics")) = false
  /\ get_customer_reference "retail analytics" = western_union_reference.
Proof.
  split; [reflexivity|]. split; [reflexivity|].
  apply (C9_ai_inside_a_word "ret" "ai" "l analytics"); reflexivity.
Defined.

(** ** Laws of the script monad *)

Lemma bind_ret_l {A B} (a : A) (k : A -> script B) : bind (ret a) k = k a.
Proof.
  unfold bind, ret. now destruct (k a).
Qed.

Lemma bind_raise {A B} (e : exn) (k : A -> script B) : bind (raise e) k = raise e.
Proof. reflexivity. Qed.

Lemma bind_emit {B} (ev : event) (k : unit -> script B) :
  bind (emit ev) k = (ev :: trace (k tt), result (k tt)).
Proof.
  unfold bind, emit, trace, result. now destruct (k tt).
Qed.

Lemma bind_returned {A B} (t : list event) (a : A) (k : A -> script B) :
  bind (t, Returned a) k = ((t ++ trace (k a))%list, result (k a)).
Proof.
  unfold bind, trace, result. now destruct (k a).
Qed.

Lemma try_except_ret {A} (a : A) (h : exn -> option (script A)) :
  try_except (ret a) h = ret a.
Proof. reflexivity. Qed.

(** ** The renderer's templates *)

(** The renderer opens with the balloons, the header and the intel section,
    before it reads anything of the briefing data. *)
Lemma render_intel_prefix (py_repr : json -> string)
      (form_data : prospect) (ai_data : json) :
  firstn 5 (trace (render py_repr form_data ai_data))
  = [StBalloons;
     StHeader ("Pre-Call Briefing: " ++ personaName form_data ++ " at "
                 ++ accountName form_data);
     StSubheader "1. At-a-Glance Intel";
     StMarkdown (intel_markdown form_data);
     StDivider].
Proof.
  unfold render. rewrite !bind_emit. reflexivity.
Qed.

Lemma render_is_rendered (py_repr : json -> string)
      (form_data : prospect) (ai_data : json) :
  rendered (trace (render py_repr form_data ai_data)) = true.
Proof.
  unfold render. rewrite bind_emit. reflexivity.
Qed.

(** C5: with persona name "Jane Doe", the opening statement
    "Hi [Persona Name], this is [SDR Name]." is rendered with the text
    "Hi Jane Doe, this is [Your Name].", whatever the other fields of the
    record and the type of the opener are. *)
Theorem C5_placeholder_substitution :
  forall (py_repr : json -> string) (ttl acct li si ty : string) (st : status),
    let form_data := {| personaName := "Jane Doe"; title := ttl; accountName := acct;
                        prospect_status := st; linkedinInfo := li;
                        supportingInfo := si |} in
    substitute_placeholders form_data "Hi [Persona Name], this is [SDR Name]."
    = "Hi Jane Doe, this is [Your Name]."
    /\ opener_line py_repr form_data
         (JObj [("type", JStr ty);
                ("statement", JStr "Hi [Persona Name], this is [SDR Name].")])
       = ret ("- **" ++ ty ++ ":** " ++ PyStr.dquote
                ++ "Hi Jane Doe, this is [Your Name]." ++ PyStr.dquote ++ PyStr.nl).
Proof.
  intros. split; reflexivity.
Qed.

(** C6: a record whose LinkedIn info is empty is rendered with
    "Not provided." on the LinkedIn line of the intel section, and one whose
    supporting info is empty with "Not provided." on the trigger line; that
    markdown is the fourth thing the renderer shows, whatever the briefing
    data are. *)
Theorem C6_empty_fields_not_provided :
  forall (name ttl acct other : string) (st : status),
    intel_markdown {| personaName := name; title := ttl; accountName := acct;
                      prospect_status := st; linkedinInfo := "";
                      supportingInfo := other |}
    = PyStr.nl ++
      "        - **Persona:** " ++ name ++ ", " ++ ttl ++ PyStr.nl ++
      "        - **Account:** " ++ acct ++ " (" ++ status_str st ++ ")" ++ PyStr.nl ++
      "        - **LinkedIn Intel:** Not provided." ++ PyStr.nl ++
      "        - **Key Trigger Intel:** " ++ PyStr.or_else other "Not provided."
      ++ PyStr.nl ++ "        "
    /\
    intel_markdown {| personaName := name; title := ttl; accountName := acct;
                      prospect_status := st; linkedinInfo := other;
                      supportingInfo := "" |}
    = PyStr.nl ++
      "        - **Persona:** " ++ name ++ ", " ++ ttl ++ PyStr.nl ++
      "        - **Account:** " ++ acct ++ " (" ++ status_str st ++ ")" ++ PyStr.nl ++
      "        - **LinkedIn Intel:** " ++ PyStr.or_else other "Not provided."
      ++ PyStr.nl ++
      "        - **Key Trigger Intel:** Not provided." ++ PyStr.nl ++ "        "
    /\
    forall (py_repr : json -> string) (form_data : prospect) (ai_data : json),
      nth_error (trace (render py_repr form_data ai_data)) 3
      = Some (StMarkdown (intel_markdown form_data)).
Proof.
  intros. split; [reflexivity|]. split; [reflexivity|].
  intros py_repr form_data ai_data.
  rewrite <- (firstn_skipn 5 (trace (render py_repr form_data ai_data))).
  rewrite render_intel_prefix. reflexivity.
Qed.

(** ** The secret lookup *)

Lemma st_secrets_configured (w : world) (k : string) :
  configured_key w = Some k -> st_secrets w "GEMINI_API_KEY" = ret k.
Proof.
  unfold configured_key, st_secrets.
  destruct (secrets w); [discriminate|].
  now intros ->.
Qed.

Lemma st_secrets_absent (w : world) :
  configured_key w = None ->
  try_except (st_secrets w "GEMINI_API_KEY") missing_key_handler
  = ([StError missing_key_msg], Raised StopException).
Proof.
  unfold configured_key, st_secrets.
  destruct (secrets w); [reflexivity|].
  now intros ->.
Qed.

Lemma raise_for_status_ok (url : string) (r : response) :
  http_ok r = true -> raise_for_status url r = ret tt.
Proof.
  unfold http_ok, raise_for_status. intros H.
  apply negb_true_iff in H.
  destruct (400 <=? status_code r)%Z eqn:Hlo; simpl in *.
  - rewrite H.
    destruct (status_code r <? 500)%Z eqn:H5; [|now rewrite andb_false_r].
    apply Z.ltb_lt in H5. apply Z.ltb_ge in H. lia.
  - destruct (500 <=? status_code r)%Z eqn:H5; [|reflexivity].
    apply Z.leb_le in H5. apply Z.leb_gt in Hlo. lia.
Qed.

(** ** The requester, once an envelope has arrived *)

Section RequesterFacts.

Variable json_decoder : string -> decoded.

(** With a key, an answer outside 4xx/5xx and a decodable body, the
    requester is one HTTP request followed by the branch on the envelope
    under the two [except] clauses. *)
Lemma call_gemini_on_envelope (w : world) (form_data : prospect)
      (k : string) (r : response) (envelope : json) :
  configured_key w = Some k ->
  server w (api_url k) (payload form_data) = Responded r ->
  http_ok r = true ->
  json_decoder (body r) = Decoded envelope ->
  call_gemini json_decoder w form_data
  = let m := try_except (read_envelope json_decoder envelope) api_failure_handler in
    (HttpPost (api_url k) (payload form_data) :: trace m, result m).
Proof.
  intros Hk Hs Hok Hd. unfold call_gemini.
  rewrite (st_secrets_configured _ _ Hk), try_except_ret, bind_ret_l.
  unfold requests_post. rewrite Hs, bind_emit.
  cbn [ret trace result fst snd]. rewrite bind_returned. cbn beta.
  rewrite (raise_for_status_ok _ _ Hok), bind_ret_l.
  unfold response_json. rewrite Hd, bind_ret_l.
  destruct (read_envelope json_decoder envelope) as [t [v|e]]; [reflexivity|].
  cbn. destruct e; cbn; reflexivity.
Qed.


(** A first candidate with the nested structure: its text goes to the
    decoder. *)
Lemma read_envelope_text (fields : list (string * json))
      (cand : json) (rest : list json) (raw : json) :
  Py.dict_get "candidates" fields = Some (JArr (cand :: rest)) ->
  nested_text cand = Some raw ->
  read_envelope json_decoder (JObj fields) = json_loads json_decoder raw.
Proof.
  intros Hc Hn.
  unfold read_envelope, has_candidates, candidate_text, Py.contains, Py.getitem.
  rewrite Hc. cbn.
  unfold nested_text in Hn.
  destruct cand as [| | | | |?|c]; try discriminate. cbn.
  destruct (Py.dict_get "content" c) as [[| | | | |?|content]|]; try discriminate. cbn.
  destruct (Py.dict_get "parts" content) as [[| | | | |[|[| | | | |?|part] ?]|?]|];
    try discriminate. cbn.
  rewrite Hn. cbn.
  now destruct (json_loads json_decoder raw) as [t [v|e]].
Qed.

(** A first candidate without the nested structure: the subscripting
    raises, nothing is reported. *)
Lemma read_envelope_no_text (fields : list (string * json))
      (cand : json) (rest : list json) :
  Py.dict_get "candidates" fields = Some (JArr (cand :: rest)) ->
  nested_text cand = None ->
  exists e : exn,
    read_envelope json_decoder (JObj fields) = ([], Raised e)
    /\ (e = KeyError \/ e = IndexError \/ e = TypeError).
Proof.
  intros Hc Hn.
  unfold read_envelope, has_candidates, candidate_text, Py.contains, Py.getitem.
  rewrite Hc. cbn.
  unfold nested_text in Hn.
  destruct cand as [| | | | |?|c]; cbn; eauto.
  destruct (Py.dict_get "content" c) as [[| | | | |?|content]|]; cbn; eauto.
  destruct (Py.dict_get "parts" content) as [[| |?|?|[|? ?]|[|[| | | | |?|part] ?]|?]|];
    cbn; eauto.
  rewrite Hn. cbn. eauto.
Qed.

End RequesterFacts.

(** ** Configuration *)

(** C3: without an API key in the configuration the requester reports the
    configuration error and stops the script; no HTTP request is sent, by
    the requester or by the submit handler around it. *)
Theorem C3_missing_key_stops_before_request
        (json_decoder : string -> decoded) (py_repr : json -> string)
        (w : world) (form_data : prospect) :
  configured_key w = None ->
  call_gemini json_decoder w form_data
  = ([StError missing_key_msg], Raised StopException)
  /\ reported (trace (call_gemini json_decoder w form_data)) = [ConfigurationError]
  /\ network_calls (trace (call_gemini json_decoder w form_data)) = 0
  /\ submit_handler json_decoder py_repr w form_data
     = ([StSpinner spinner_text; StError missing_key_msg], Raised StopException)
  /\ network_calls (trace (submit_handler json_decoder py_repr w form_data)) = 0.
Proof.
  intros Hk.
  assert (Hcall : call_gemini json_decoder w form_data
                  = ([StError missing_key_msg], Raised StopException)).
  { unfold call_gemini. now rewrite (st_secrets_absent _ Hk). }
  unfold submit_handler. rewrite Hcall.
  repeat split; reflexivity.
Qed.

(** A secrets table that holds another key only. *)
Lemma C3_keyless_world :
  configured_key Sample.keyless = None
  /\ call_gemini RefJson.loads Sample.keyless Sample.jane
     = ([StError missing_key_msg], Raised StopException)
  /\ network_calls (trace (submit_handler RefJson.loads RefJson.repr
                             Sample.keyless Sample.jane)) = 0.
Proof.
  split; [reflexivity|].
  destruct (C3_missing_key_stops_before_request
              RefJson.loads RefJson.repr Sample.keyless Sample.jane eq_refl)
    as (Hcall & _ & _ & _ & Hnet).
  split; [exact Hcall | exact Hnet].
Defined.

(** ** Envelopes *)





(** C1, as amended: a successful request returns exactly the value decoded
    from the text of the first candidate.  Nothing is reported and the four
    fields are not looked at; the submit handler runs the renderer on that
    value whenever it is truthy. *)
Theorem C1_decoded_payload_returned_unchecked
        (json_decoder : string -> decoded) (py_repr : json -> string)
        (w : world) (form_data : prospect)
        (k : string) (r : response) (fields : list (string * json))
        (cand : json) (rest : list json) (text : string) (v : json) :
  configured_key w = Some k ->
  server w (api_url k) (payload form_data) = Responded r ->
  http_ok r = true ->
  json_decoder (body r) = Decoded (JObj fields) ->
  Py.dict_get "candidates" fields = Some (JArr (cand :: rest)) ->
  nested_text cand = Some (JStr text) ->
  json_decoder text = Decoded v ->
  call_gemini json_decoder w form_data
  = ([HttpPost (api_url k) (payload form_data)], Returned v)
  /\ reported (trace (call_gemini json_decoder w form_data)) = []
  /\ submit_handler json_decoder py_repr w form_data
     = let m := if Py.truthy v then render py_repr form_data v else ret tt in
       (StSpinner spinner_text :: HttpPost (api_url k) (payload form_data) :: trace m,
        result m).
Proof.
  intros Hk Hs Hok Hd Hc Hn Ht.
  assert (Hcall : call_gemini json_decoder w form_data
                  = ([HttpPost (api_url k) (payload form_data)], Returned v)).
  { rewrite (call_gemini_on_envelope _ _ _ _ _ _ Hk Hs Hok Hd).
    rewrite (read_envelope_text _ _ _ _ _ Hc Hn).
    unfold json_loads. now rewrite Ht. }
  unfold submit_handler. rewrite Hcall.
  split; [reflexivity|]. split; [reflexivity|].
  rewrite bind_emit, bind_returned. reflexivity.
Qed.

(** The candidate text [{"justification": "x"}]. *)
Lemma C1_partial_payload_run :
  let w := Sample.answering "k" (Sample.envelope_with Sample.partial_payload_literal) in
  call_gemini RefJson.loads w Sample.jane
  = ([HttpPost (api_url "k") (payload Sample.jane)],
     Returned (JObj [("justification", JStr "x")]))
  /\ reported (trace (call_gemini RefJson.loads w Sample.jane)) = [].
Proof.
  intros w.
  destruct (C1_decoded_payload_returned_unchecked
              RefJson.loads RefJson.repr w Sample.jane "k"
              {| status_code := 200; reason := "OK";
                 body := Sample.envelope_with Sample.partial_payload_literal |}
              [("candidates",
                JArr [JObj [("content",
                             JObj [("parts",
                                    JArr [JObj [("text",
                                                 JStr ("{" ++ Sample.q ++ "justification"
                                                       ++ Sample.q ++ ": " ++ Sample.q
                                                       ++ "x" ++ Sample.q ++ "}"))]])])]])]
              (JObj [("content",
                      JObj [("parts",
                             JArr [JObj [("text",
                                          JStr ("{" ++ Sample.q ++ "justification"
                                                ++ Sample.q ++ ": " ++ Sample.q
                                                ++ "x" ++ Sample.q ++ "}"))]])])])
              []
              ("{" ++ Sample.q ++ "justification" ++ Sample.q ++ ": " ++ Sample.q
               ++ "x" ++ Sample.q ++ "}")
              (JObj [("justification", JStr "x")])
              eq_refl eq_refl eq_refl eq_refl eq_refl eq_refl eq_refl)
    as (Hcall & Hrep & _).
  split; [exact Hcall | exact Hrep].
Defined.

(** C1, as stated, fails: the payload [{"justification": "x"}] lacks three of
    the four fields, yet the requester returns it without reporting anything,
    and the submit handler starts rendering it (and then stops on a
    KeyError at the missing use case). *)
Lemma C1_partial_payload_reaches_renderer :
  let w := Sample.answering "k" (Sample.envelope_with Sample.partial_payload_literal) in
  let v := JObj [("justification", JStr "x")] in
  result (call_gemini RefJson.loads w Sample.jane) = Returned v
  /\ has_required_fields v = false
  /\ reported (trace (call_gemini RefJson.loads w Sample.jane)) = []
  /\ rendered (trace (submit_handler RefJson.loads RefJson.repr w Sample.jane)) = true
  /\ reported (trace (submit_handler RefJson.loads RefJson.repr w Sample.jane)) = []
  /\ result (submit_handler RefJson.loads RefJson.repr w Sample.jane) = Raised KeyError.
Proof.
  vm_compute. repeat split; reflexivity.
Qed.

(** C10, as amended: when the candidates list is not empty and its first
    candidate lacks the nested content/parts/text structure, the requester
    ends with an exception none of its [except] clauses catches, a KeyError,
    an IndexError or a TypeError, and reports none of the four failures. *)
Theorem C10_missing_structure_raises
        (json_decoder : string -> decoded)
        (w : world) (form_data : prospect)
        (k : string) (r : response) (fields : list (string * json))
        (cand : json) (rest : list json) :
  configured_key w = Some k ->
  server w (api_url k) (payload form_data) = Responded r ->
  http_ok r = true ->
  json_decoder (body r) = Decoded (JObj fields) ->
  Py.dict_get "candidates" fields = Some (JArr (cand :: rest)) ->
  nested_text cand = None ->
  exists e : exn,
    call_gemini json_decoder w form_data
    = ([HttpPost (api_url k) (payload form_data)], Raised e)
    /\ (e = KeyError \/ e = IndexError \/ e = TypeError)
    /\ reported (trace (call_gemini json_decoder w form_data)) = [].
Proof.
  intros Hk Hs Hok Hd Hc Hn.
  destruct (read_envelope_no_text json_decoder _ _ _ Hc Hn) as (e & Hread & He).
  exists e.
  rewrite (call_gemini_on_envelope _ _ _ _ _ _ Hk Hs Hok Hd), Hread.
  destruct He as [-> | [-> | ->]]; repeat split; auto.
Qed.

(** A first candidate that holds a finish reason and no content. *)
Lemma C10_candidate_without_content :
  let w := Sample.answering "k" Sample.empty_candidate_body in
  nested_text (JObj [("finishReason", JStr "SAFETY")]) = None
  /\ exists e : exn,
       call_gemini RefJson.loads w Sample.jane
       = ([HttpPost (api_url "k") (payload Sample.jane)], Raised e)
       /\ (e = KeyError \/ e = IndexError \/ e = TypeError)
       /\ reported (trace (call_gemini RefJson.loads w Sample.jane)) = [].
Proof.
  intros w. split; [reflexivity|].
  exact (C10_missing_structure_raises
           RefJson.loads w Sample.jane "k"
           {| status_code := 200; reason := "OK"; body := Sample.empty_candidate_body |}
           [("candidates", JArr [JObj [("finishReason", JStr "SAFETY")]])]
           (JObj [("finishReason", JStr "SAFETY")]) []
           eq_refl eq_refl eq_refl eq_refl eq_refl eq_refl).
Defined.

(** C10, as stated, fails: with the envelope [{"candidates": [5]}] the first
    candidate is a number, subscripting it raises a TypeError, which is
    neither a KeyError nor an IndexError. *)
Lemma C10_number_candidate_type_error :
  let w := Sample.answering "k" Sample.number_candidate_body in
  RefJson.loads Sample.number_candidate_body
  = Decoded (JObj [("candidates", JArr [JInt 5])])
  /\ nested_text (JInt 5) = None
  /\ result (call_gemini RefJson.loads w Sample.jane) = Raised TypeError
  /\ result (call_gemini RefJson.loads w Sample.jane) <> Raised KeyError
  /\ result (call_gemini RefJson.loads w Sample.jane) <> Raised IndexError.
Proof.
  vm_compute. repeat split; discriminate.
Qed.

(** * Further properties of the code *)

(** ** Every end of the requester *)

Lemma lookup_step_ret {A} (a : A) : lookup_step (ret a).
Proof. left. now exists a. Qed.

Lemma lookup_step_raise {A} (e : exn) :
  e = KeyError \/ e = IndexError \/ e = TypeError -> lookup_step (@raise A e).
Proof. right. now exists e. Qed.

Lemma lookup_step_bind {A B} (m : script A) (k : A -> script B) :
  lookup_step m -> (forall a, lookup_step (k a)) -> lookup_step (bind m k).
Proof.
  intros [[a ->] | (e & -> & He)] Hk.
  - change (lookup_step (bind (ret a) k)). rewrite bind_ret_l. apply Hk.
  - right. now exists e.
Qed.

Create HintDb lookup.
#[local] Hint Resolve lookup_step_ret lookup_step_raise lookup_step_bind : lookup.

Lemma getitem_step (v : json) (k : string) : lookup_step (Py.getitem v k).
Proof.
  destruct v; cbn; auto with lookup.
  destruct (Py.dict_get k fields); auto with lookup.
Qed.

Lemma first_step (v : json) : lookup_step (Py.first v).
Proof.
  destruct v as [| | | |s|l|d]; cbn; auto with lookup.
  - destruct s; auto with lookup.
  - destruct l; auto with lookup.
Qed.

Lemma contains_step (k : string) (v : json) : lookup_step (Py.contains k v).
Proof.
  destruct v; cbn; auto with lookup.
Qed.

#[local] Hint Resolve getitem_step first_step contains_step : lookup.

Section RequesterEnds.

Variable json_decoder : string -> decoded.

Lemma candidate_text_step (envelope : json) :
  lookup_step (candidate_text envelope).
Proof.
  unfold candidate_text.
  repeat (apply lookup_step_bind; [auto with lookup | intros ?]).
  auto with lookup.
Qed.

Lemma has_candidates_step (envelope : json) :
  lookup_step (has_candidates envelope).
Proof.
  unfold has_candidates.
  apply lookup_step_bind; [auto with lookup | intros present].
  destruct present; auto with lookup.
Qed.

Lemma json_loads_ends (envelope raw : json) :
  envelope_end envelope (json_loads json_decoder raw).
Proof.
  destruct raw; cbn; try (apply env_uncaught; auto; fail).
  destruct (json_decoder s); constructor.
Qed.

(** The branch on the envelope ends in one of four ways. *)
Lemma read_envelope_ends (envelope : json) :
  envelope_end envelope (read_envelope json_decoder envelope).
Proof.
  unfold read_envelope.
  destruct (has_candidates_step envelope) as [[ok ->] | (e & -> & He)].
  - change (([] : list event), Returned ok) with (ret ok). rewrite bind_ret_l.
    destruct ok.
    + destruct (candidate_text_step envelope) as [[raw ->] | (e & -> & He)].
      * change (([] : list event), Returned raw) with (ret raw). rewrite bind_ret_l.
        apply json_loads_ends.
      * now apply env_uncaught.
    + rewrite !bind_emit. apply env_invalid.
  - now apply env_uncaught.
Qed.

(** The requester ends in one of the six ways of [requester_end]. *)
Lemma call_gemini_cases (w : world) (form_data : prospect) :
  requester_end w form_data (call_gemini json_decoder w form_data).
Proof.
  unfold call_gemini.
  destruct (configured_key w) as [k|] eqn:Hk.
  - rewrite (st_secrets_configured _ _ Hk), try_except_ret, bind_ret_l.
    unfold requests_post. rewrite bind_emit.
    destruct (server w (api_url k) (payload form_data)) as [d|r].
    + cbn. now apply end_call_failed.
    + cbn [ret trace result fst snd]. rewrite bind_returned. cbn beta.
      unfold raise_for_status.
      destruct ((400 <=? status_code r)%Z && (status_code r <? 500)%Z);
        [cbn; now apply end_call_failed|].
      destruct ((500 <=? status_code r)%Z && (status_code r <? 600)%Z);
        [cbn; now apply end_call_failed|].
      rewrite bind_ret_l. unfold response_json.
      destruct (json_decoder (body r)) as [envelope|d];
        [|cbn; now apply end_call_failed].
      rewrite bind_ret_l.
      destruct (read_envelope_ends envelope) as [|v|d|e He]; cbn.
      * now apply end_invalid_structure.
      * now apply end_value.
      * now apply end_decode_failed.
      * destruct He as [-> | [-> | ->]]; cbn; apply end_uncaught; auto.
  - rewrite (st_secrets_absent _ Hk). cbn. now apply end_no_key.
Qed.


End RequesterEnds.

(** ** Requests and reports *)

Lemma failure_of_call_failed (detail : string) :
  failure_of_msg (api_call_failed_msg detail) = Some NetworkError.
Proof. now destruct detail. Qed.

(** *** Steps that emit nothing *)

Lemma trace_bind_silent {A B} (m : script A) (k : A -> script B) :
  trace m = [] -> (forall a, trace (k a) = []) -> trace (bind m k) = [].
Proof.
  destruct m as [t [a|e]]; cbn; intros -> Hk; [|reflexivity].
  specialize (Hk a). destruct (k a) as [t' o]. exact Hk.
Qed.

Lemma lookup_step_silent {A} (m : script A) : lookup_step m -> trace m = [].
Proof.
  now intros [[a ->] | (e & -> & _)].
Qed.

Lemma as_str_silent (v : json) : trace (Py.as_str v) = [].
Proof. now destruct v. Qed.

Lemma iter_silent (v : json) : trace (Py.iter v) = [].
Proof. now destruct v. Qed.

Lemma getitem_silent (v : json) (k : string) : trace (Py.getitem v k) = [].
Proof. apply lookup_step_silent, getitem_step. Qed.

Lemma opener_line_silent (py_repr : json -> string)
      (form_data : prospect) (opener : json) :
  trace (opener_line py_repr form_data opener) = [].
Proof.
  unfold opener_line.
  apply trace_bind_silent; [apply getitem_silent | intros raw].
  apply trace_bind_silent; [apply as_str_silent | intros s0].
  apply trace_bind_silent; [apply getitem_silent | reflexivity].
Qed.

Lemma openers_loop_silent (py_repr : json -> string) (form_data : prospect)
      (openers : list json) (acc : string) :
  trace (openers_loop py_repr form_data openers acc) = [].
Proof.
  revert acc. induction openers as [|o os IH]; intros acc; cbn [openers_loop].
  - reflexivity.
  - apply trace_bind_silent; [apply opener_line_silent | intros line; apply IH].
Qed.

(** *** What the renderer emits *)

Lemma shows_bind {A B} (m : script A) (k : A -> script B) :
  Forall (fun ev => is_render_event ev = true) (trace m) ->
  (forall a, Forall (fun ev => is_render_event ev = true) (trace (k a))) ->
  Forall (fun ev => is_render_event ev = true) (trace (bind m k)).
Proof.
  destruct m as [t [a|e]]; cbn; intros Ht Hk; [|exact Ht].
  specialize (Hk a). destruct (k a) as [t' o]. cbn in *.
  apply Forall_app. now split.
Qed.

Lemma shows_silent {A} (m : script A) :
  trace m = [] -> Forall (fun ev => is_render_event ev = true) (trace m).
Proof. intros ->. constructor. Qed.

Lemma shows_emit (ev : event) :
  is_render_event ev = true ->
  Forall (fun ev => is_render_event ev = true) (trace (emit ev)).
Proof. intros H. cbn. now constructor. Qed.

(** The renderer emits briefing output only: no request, no error report. *)
Lemma render_shows_only (py_repr : json -> string)
      (form_data : prospect) (ai_data : json) :
  Forall (fun ev => is_render_event ev = true)
         (trace (render py_repr form_data ai_data)).
Proof.
  unfold render.
  repeat (apply shows_bind;
          [ first [ apply shows_emit; reflexivity
                  | apply shows_silent;
                    first [ apply getitem_silent | apply as_str_silent
                          | apply iter_silent | apply openers_loop_silent ] ]
          | intros ? ]).
  apply shows_emit. reflexivity.
Qed.

Lemma render_events_not_posts (t : list event) :
  Forall (fun ev => is_render_event ev = true) t ->
  network_calls t = 0 /\ reported t = [].
Proof.
  induction 1 as [|ev t Hev _ [IHn IHr]]; [now split|].
  unfold network_calls in *. destruct ev; try discriminate; cbn; now split.
Qed.

Lemma network_calls_app (a b : list event) :
  network_calls (a ++ b) = network_calls a + network_calls b.
Proof.
  unfold network_calls. now rewrite filter_app, length_app.
Qed.

Lemma rendered_app (a b : list event) :
  rendered (a ++ b) = rendered a || rendered b.
Proof. apply existsb_app. Qed.

(** What the submit handler adds to the requester: the spinner, and the
    rendering when the returned value is truthy. *)
Lemma submit_handler_after (json_decoder : string -> decoded) (py_repr : json -> string)
      (w : world) (form_data : prospect) (t : list event) (v : json) :
  call_gemini json_decoder w form_data = (t, Returned v) ->
  submit_handler json_decoder py_repr w form_data
  = let m := if Py.truthy v then render py_repr form_data v else ret tt in
    (StSpinner spinner_text :: t ++ trace m, result m).
Proof.
  intros H. unfold submit_handler. now rewrite H, bind_emit, bind_returned.
Qed.

Lemma submit_handler_raised (json_decoder : string -> decoded) (py_repr : json -> string)
      (w : world) (form_data : prospect) (t : list event) (e : exn) :
  call_gemini json_decoder w form_data = (t, Raised e) ->
  submit_handler json_decoder py_repr w form_data
  = (StSpinner spinner_text :: t, Raised e).
Proof.
  intros H. unfold submit_handler. now rewrite H, bind_emit.
Qed.

Lemma submit_handler_after_none (json_decoder : string -> decoded)
      (py_repr : json -> string) (w : world) (form_data : prospect) (t : list event) :
  call_gemini json_decoder w form_data = (t, Returned JNull) ->
  submit_handler json_decoder py_repr w form_data
  = (StSpinner spinner_text :: t, Returned tt).
Proof.
  intros H. rewrite (submit_handler_after _ py_repr _ _ _ _ H).
  cbn. now rewrite app_nil_r.
Qed.

Lemma reported_call_failed (url detail : string) (body : json) :
  reported [HttpPost url body; StError (api_call_failed_msg detail)] = [NetworkError].
Proof.
  cbn [reported]. now rewrite failure_of_call_failed.
Qed.

(** X2: no retry and no request without a key.  [call_gemini] sends exactly
    one HTTP request when a key is configured and none otherwise, in every
    world and with every decoder; the submit handler adds none. *)
Theorem one_request_per_submission
        (json_decoder : string -> decoded) (py_repr : json -> string)
        (w : world) (form_data : prospect) :
  network_calls (trace (call_gemini json_decoder w form_data))
  = match configured_key w with Some _ => 1 | None => 0 end
  /\ network_calls (trace (submit_handler json_decoder py_repr w form_data))
     = network_calls (trace (call_gemini json_decoder w form_data)).
Proof.
  split.
  - destruct (call_gemini_cases json_decoder w form_data) as
      [Hk | k d Hk | k env Hk | k Hk | k v Hk | k e Hk He];
      rewrite Hk; reflexivity.
  - destruct (call_gemini json_decoder w form_data) as [t [v|e]] eqn:Hcall.
    + rewrite (submit_handler_after _ py_repr _ _ _ _ Hcall).
      cbn [trace fst].
      change (network_calls (StSpinner spinner_text :: ?l)) with (network_calls l).
      rewrite network_calls_app.
      destruct (Py.truthy v); [|cbn; lia].
      destruct (render_events_not_posts _ (render_shows_only py_repr form_data v))
        as [-> _].
      lia.
    + now rewrite (submit_handler_raised _ py_repr _ _ _ _ Hcall).
Qed.

(** X3: no partial success after a report.  [call_gemini] reports at most
    one failure; when it reports one, the submit handler renders nothing and
    reports nothing more. *)
Theorem reported_failure_renders_nothing
        (json_decoder : string -> decoded) (py_repr : json -> string)
        (w : world) (form_data : prospect) :
  reported (trace (call_gemini json_decoder w form_data)) <> [] ->
  (exists f : failure,
      reported (trace (call_gemini json_decoder w form_data)) = [f]
      /\ reported (trace (submit_handler json_decoder py_repr w form_data)) = [f])
  /\ rendered (trace (submit_handler json_decoder py_repr w form_data)) = false.
Proof.
  intros Hrep.
  pose proof (call_gemini_cases json_decoder w form_data) as Hend.
  inversion Hend as
    [Hk Heq | k d Hk Heq | k env Hk Heq | k Hk Heq | k v Hk Heq | k e Hk He Heq];
    symmetry in Heq; rewrite Heq in Hrep.
  - rewrite (submit_handler_raised _ py_repr _ _ _ _ Heq).
    split; [exists ConfigurationError|]; now cbn.
  - rewrite (submit_handler_after_none _ py_repr _ _ _ Heq).
    split; [exists NetworkError; split|].
    + exact (reported_call_failed (api_url k) d (payload form_data)).
    + exact (reported_call_failed (api_url k) d (payload form_data)).
    + reflexivity.
  - rewrite (submit_handler_after_none _ py_repr _ _ _ Heq).
    split; [exists MalformedResponse|]; now cbn.
  - rewrite (submit_handler_after_none _ py_repr _ _ _ Heq).
    split; [exists DecodeError|]; now cbn.
  - now elim Hrep.
  - now elim Hrep.
Qed.

(** The world without a key: the only report is the configuration error. *)
Lemma reported_failure_sample :
  rendered (trace (submit_handler RefJson.loads RefJson.repr
                     Sample.keyless Sample.jane)) = false.
Proof.
  refine (proj2 (reported_failure_renders_nothing
                   RefJson.loads RefJson.repr Sample.keyless Sample.jane _)).
  vm_compute. discriminate.
Defined.

(** ** Failures of the request *)




(** X4: when the server cannot be reached, [requests.post] raises, the
    failure is reported as a failed API call with the detail of the
    exception, [None] is returned and nothing is rendered. *)
Theorem connection_failure_reported
        (json_decoder : string -> decoded) (py_repr : json -> string)
        (w : world) (form_data : prospect) (k detail : string) :
  configured_key w = Some k ->
  server w (api_url k) (payload form_data) = ConnectionFailed detail ->
  call_gemini json_decoder w form_data
  = ([HttpPost (api_url k) (payload form_data);
      StError ("Error: API call failed: " ++ detail)], Returned JNull)
  /\ reported (trace (call_gemini json_decoder w form_data)) = [NetworkError]
  /\ submit_handler json_decoder py_repr w form_data
     = ([StSpinner spinner_text;
         HttpPost (api_url k) (payload form_data);
         StError ("Error: API call failed: " ++ detail)], Returned tt).
Proof.
  intros Hk Hs.
  assert (Hcall : call_gemini json_decoder w form_data
                  = ([HttpPost (api_url k) (payload form_data);
                      StError (api_call_failed_msg detail)], Returned JNull)).
  { unfold call_gemini.
    rewrite (st_secrets_configured _ _ Hk), try_except_ret, bind_ret_l.
    unfold requests_post. rewrite Hs. reflexivity. }
  rewrite (submit_handler_after_none _ py_repr _ _ _ Hcall), Hcall.
  split; [reflexivity|]. split; [|reflexivity].
  exact (reported_call_failed (api_url k) detail (payload form_data)).
Qed.

(** An unreachable server. *)
Lemma connection_failure_sample :
  reported (trace (call_gemini RefJson.loads
                     (Scenario.unreachable "k" "Connection refused") Sample.jane))
  = [NetworkError].
Proof.
  destruct (connection_failure_reported
              RefJson.loads RefJson.repr
              (Scenario.unreachable "k" "Connection refused") Sample.jane
              "k" "Connection refused" eq_refl eq_refl) as (_ & H & _).
  exact H.
Defined.






(** ** Edges of the envelope *)

(** X7: a candidates entry that is there but falsy (an empty list, null, 0,
    an empty string or object) is handled like a missing one: the invalid
    structure is reported with the envelope shown, and [None] is returned. *)
Theorem falsy_candidates_is_malformed
        (json_decoder : string -> decoded) (py_repr : json -> string)
        (w : world) (form_data : prospect)
        (k : string) (r : response) (fields : list (string * json)) (cands : json) :
  configured_key w = Some k ->
  server w (api_url k) (payload form_data) = Responded r ->
  http_ok r = true ->
  json_decoder (body r) = Decoded (JObj fields) ->
  Py.dict_get "candidates" fields = Some cands ->
  Py.truthy cands = false ->
  call_gemini json_decoder w form_data
  = ([HttpPost (api_url k) (payload form_data);
      StError invalid_structure_msg;
      StJson (JObj fields)], Returned JNull)
  /\ reported (trace (call_gemini json_decoder w form_data)) = [MalformedResponse]
  /\ rendered (trace (submit_handler json_decoder py_repr w form_data)) = false.
Proof.
  intros Hk Hs Hok Hd Hc Hf.
  assert (Hcall : call_gemini json_decoder w form_data
                  = ([HttpPost (api_url k) (payload form_data);
                      StError invalid_structure_msg;
                      StJson (JObj fields)], Returned JNull)).
  { rewrite (call_gemini_on_envelope _ _ _ _ _ _ Hk Hs Hok Hd).
    unfold read_envelope, has_candidates, Py.contains, Py.getitem.
    rewrite Hc. cbn. rewrite Hf. reflexivity. }
  rewrite (submit_handler_after_none _ py_repr _ _ _ Hcall), Hcall.
  repeat split; reflexivity.
Qed.

(** The envelope [{"candidates": []}]. *)
Lemma falsy_candidates_sample :
  reported (trace (call_gemini RefJson.loads
                     (Sample.answering "k" Scenario.empty_candidates_body)
                     Sample.jane))
  = [MalformedResponse].
Proof.
  destruct (falsy_candidates_is_malformed
              RefJson.loads RefJson.repr
              (Sample.answering "k" Scenario.empty_candidates_body) Sample.jane "k"
              {| status_code := 200; reason := "OK";
                 body := Scenario.empty_candidates_body |}
              [("candidates", JArr [])] (JArr [])
              eq_refl eq_refl eq_refl eq_refl eq_refl eq_refl) as (_ & H & _).
  exact H.
Defined.

(** X8: an envelope that is null, a boolean or a number cannot be tested
    with [in]: the requester ends with an uncaught TypeError after its
    request, and reports nothing. *)
Theorem scalar_envelope_raises
        (json_decoder : string -> decoded)
        (w : world) (form_data : prospect)
        (k : string) (r : response) (envelope : json) :
  configured_key w = Some k ->
  server w (api_url k) (payload form_data) = Responded r ->
  http_ok r = true ->
  json_decoder (body r) = Decoded envelope ->
  iterable envelope = false ->
  call_gemini json_decoder w form_data
  = ([HttpPost (api_url k) (payload form_data)], Raised TypeError).
Proof.
  intros Hk Hs Hok Hd Hi.
  rewrite (call_gemini_on_envelope _ _ _ _ _ _ Hk Hs Hok Hd).
  destruct envelope; try discriminate; reflexivity.
Qed.

(** The envelope [null]. *)
Lemma scalar_envelope_sample :
  call_gemini RefJson.loads (Sample.answering "k" "null") Sample.jane
  = ([HttpPost (api_url "k") (payload Sample.jane)], Raised TypeError).
Proof.
  exact (scalar_envelope_raises
           RefJson.loads (Sample.answering "k" "null") Sample.jane "k"
           {| status_code := 200; reason := "OK"; body := "null" |} JNull
           eq_refl eq_refl eq_refl eq_refl eq_refl).
Defined.

(** X9: an envelope that is a list is reported as an invalid structure,
    unless the string "candidates" is one of its elements: then the
    subscript by a string raises an uncaught TypeError. *)
Theorem list_envelope
        (json_decoder : string -> decoded)
        (w : world) (form_data : prospect)
        (k : string) (r : response) (items : list json) :
  configured_key w = Some k ->
  server w (api_url k) (payload form_data) = Responded r ->
  http_ok r = true ->
  json_decoder (body r) = Decoded (JArr items) ->
  call_gemini json_decoder w form_data
  = if existsb (Py.is_str "candidates") items
    then ([HttpPost (api_url k) (payload form_data)], Raised TypeError)
    else ([HttpPost (api_url k) (payload form_data);
           StError invalid_structure_msg; StJson (JArr items)], Returned JNull).
Proof.
  intros Hk Hs Hok Hd.
  rewrite (call_gemini_on_envelope _ _ _ _ _ _ Hk Hs Hok Hd).
  unfold read_envelope, has_candidates, Py.contains.
  rewrite bind_ret_l.
  destruct (existsb (Py.is_str "candidates") items); reflexivity.
Qed.

(** The envelope [["candidates"]]. *)
Lemma list_envelope_sample :
  let body := "[" ++ Sample.q ++ "candidates" ++ Sample.q ++ "]" in
  call_gemini RefJson.loads (Sample.answering "k" body) Sample.jane
  = ([HttpPost (api_url "k") (payload Sample.jane)], Raised TypeError).
Proof.
  intros body.
  exact (list_envelope
           RefJson.loads (Sample.answering "k" body) Sample.jane "k"
           {| status_code := 200; reason := "OK"; body := body |}
           [JStr "candidates"]
           eq_refl eq_refl eq_refl eq_refl).
Defined.

(** X10: when the first candidate has the nested structure but its text is
    not a string, [json.loads] raises a TypeError that no clause catches;
    nothing is reported. *)
Theorem non_string_text_raises
        (json_decoder : string -> decoded)
        (w : world) (form_data : prospect)
        (k : string) (r : response) (fields : list (string * json))
        (cand : json) (rest : list json) (raw : json) :
  configured_key w = Some k ->
  server w (api_url k) (payload form_data) = Responded r ->
  http_ok r = true ->
  json_decoder (body r) = Decoded (JObj fields) ->
  Py.dict_get "candidates" fields = Some (JArr (cand :: rest)) ->
  nested_text cand = Some raw ->
  is_text raw = false ->
  call_gemini json_decoder w form_data
  = ([HttpPost (api_url k) (payload form_data)], Raised TypeError).
Proof.
  intros Hk Hs Hok Hd Hc Hn Ht.
  rewrite (call_gemini_on_envelope _ _ _ _ _ _ Hk Hs Hok Hd).
  rewrite (read_envelope_text _ _ _ _ _ Hc Hn).
  destruct raw; try discriminate; reflexivity.
Qed.

(** A candidate whose text is the number 5. *)
Lemma non_string_text_sample :
  call_gemini RefJson.loads
    (Sample.answering "k" (Sample.envelope_with "5")) Sample.jane
  = ([HttpPost (api_url "k") (payload Sample.jane)], Raised TypeError).
Proof.
  exact (non_string_text_raises
           RefJson.loads (Sample.answering "k" (Sample.envelope_with "5")) Sample.jane "k"
           {| status_code := 200; reason := "OK"; body := Sample.envelope_with "5" |}
           [("candidates",
             JArr [JObj [("content",
                          JObj [("parts", JArr [JObj [("text", JInt 5)]])])]])]
           (JObj [("content", JObj [("parts", JArr [JObj [("text", JInt 5)]])])])
           [] (JInt 5)
           eq_refl eq_refl eq_refl eq_refl eq_refl eq_refl eq_refl).
Defined.

(** X11: only the first candidate is read.  Two envelopes whose candidates
    lists start with the same candidate are handled alike, whatever follows
    it and whatever else the envelopes hold. *)
Theorem only_first_candidate_is_read
        (json_decoder : string -> decoded)
        (fields1 fields2 : list (string * json))
        (cand : json) (rest1 rest2 : list json) :
  Py.dict_get "candidates" fields1 = Some (JArr (cand :: rest1)) ->
  Py.dict_get "candidates" fields2 = Some (JArr (cand :: rest2)) ->
  read_envelope json_decoder (JObj fields1)
  = read_envelope json_decoder (JObj fields2).
Proof.
  intros H1 H2.
  unfold read_envelope, has_candidates, candidate_text, Py.contains, Py.getitem.
  rewrite H1, H2. reflexivity.
Qed.

(** One candidate, and the same one followed by the number 5. *)
Lemma only_first_candidate_sample :
  let cand := JObj [("content", JObj [("parts", JArr [JObj [("text", JStr "1")]])])] in
  read_envelope RefJson.loads (JObj [("candidates", JArr [cand])])
  = read_envelope RefJson.loads
      (JObj [("usage", JInt 3); ("candidates", JArr [cand; JInt 5])]).
Proof.
  intros cand.
  exact (only_first_candidate_is_read RefJson.loads
           [("candidates", JArr [cand])]
           [("usage", JInt 3); ("candidates", JArr [cand; JInt 5])]
           cand [] [JInt 5] eq_refl eq_refl).
Defined.

(** X12: a decoded payload that is falsy (null, false, 0, an empty string,
    list or object) is returned without a report, and the submit handler
    then shows nothing at all: no briefing and no error. *)
Theorem falsy_payload_shows_nothing
        (json_decoder : string -> decoded) (py_repr : json -> string)
        (w : world) (form_data : prospect)
        (k : string) (r : response) (fields : list (string * json))
        (cand : json) (rest : list json) (text : string) (v : json) :
  configured_key w = Some k ->
  server w (api_url k) (payload form_data) = Responded r ->
  http_ok r = true ->
  json_decoder (body r) = Decoded (JObj fields) ->
  Py.dict_get "candidates" fields = Some (JArr (cand :: rest)) ->
  nested_text cand = Some (JStr text) ->
  json_decoder text = Decoded v ->
  Py.truthy v = false ->
  submit_handler json_decoder py_repr w form_data
  = ([StSpinner spinner_text; HttpPost (api_url k) (payload form_data)], Returned tt).
Proof.
  intros Hk Hs Hok Hd Hc Hn Ht Hf.
  assert (Hcall : call_gemini json_decoder w form_data
                  = ([HttpPost (api_url k) (payload form_data)], Returned v)).
  { rewrite (call_gemini_on_envelope _ _ _ _ _ _ Hk Hs Hok Hd).
    rewrite (read_envelope_text _ _ _ _ _ Hc Hn).
    unfold json_loads. now rewrite Ht. }
  rewrite (submit_handler_after _ py_repr _ _ _ _ Hcall), Hf. reflexivity.
Qed.

(** The candidate text [{}]. *)
Lemma falsy_payload_sample :
  let w := Sample.answering "k" (Sample.envelope_with Scenario.empty_payload_literal) in
  submit_handler RefJson.loads RefJson.repr w Sample.jane
  = ([StSpinner spinner_text; HttpPost (api_url "k") (payload Sample.jane)],
     Returned tt).
Proof.
  intros w.
  exact (falsy_payload_shows_nothing
           RefJson.loads RefJson.repr w Sample.jane "k"
           {| status_code := 200; reason := "OK";
              body := Sample.envelope_with Scenario.empty_payload_literal |}
           [("candidates",
             JArr [JObj [("content",
                          JObj [("parts", JArr [JObj [("text", JStr "{}")]])])]])]
           (JObj [("content", JObj [("parts", JArr [JObj [("text", JStr "{}")]])])])
           [] "{}" (JObj [])
           eq_refl eq_refl eq_refl eq_refl eq_refl eq_refl eq_refl eq_refl).
Defined.

(** ** The renderer on briefing data *)





(** The openers loop stops at the first opener that raises, and gives no
    text at all. *)
Lemma openers_loop_raises (py_repr : json -> string) (form_data : prospect)
      (before after : list json) (bad : json) (lines : list string)
      (e : exn) (acc : string) :
  Forall2 (fun opener line => opener_line py_repr form_data opener = ret line)
          before lines ->
  opener_line py_repr form_data bad = raise e ->
  openers_loop py_repr form_data (before ++ bad :: after) acc = raise e.
Proof.
  intros H Hbad. revert acc.
  induction H as [|o l os ls Ho _ IH]; intros acc; cbn [openers_loop app].
  - now rewrite Hbad.
  - now rewrite Ho, bind_ret_l, IH.
Qed.

Ltac run_render :=
  repeat first
    [ rewrite bind_emit
    | rewrite bind_ret_l
    | rewrite bind_raise
    | progress cbn beta iota delta [trace result fst snd Py.as_str Py.iter] ].



(** X14: briefing data without a justification: the balloons, the header
    and the intel section are already on the screen when the renderer stops
    on a KeyError; nothing of the briefing itself is shown and no error is
    reported. *)
Theorem render_without_justification
        (py_repr : json -> string) (form_data : prospect)
        (d : list (string * json)) :
  Py.dict_get "justification" d = None ->
  render py_repr form_data (JObj d)
  = ([StBalloons;
      StHeader ("Pre-Call Briefing: " ++ personaName form_data ++ " at "
                  ++ accountName form_data);
      StSubheader "1. At-a-Glance Intel";
      StMarkdown (intel_markdown form_data);
      StDivider;
      StSubheader "2. The 'Why You, Why Now'"],
     Raised KeyError)
  /\ reported (trace (render py_repr form_data (JObj d))) = [].
Proof.
  intros Hj.
  assert (H : render py_repr form_data (JObj d)
              = ([StBalloons;
                  StHeader ("Pre-Call Briefing: " ++ personaName form_data ++ " at "
                              ++ accountName form_data);
                  StSubheader "1. At-a-Glance Intel";
                  StMarkdown (intel_markdown form_data);
                  StDivider;
                  StSubheader "2. The 'Why You, Why Now'"],
                 Raised KeyError)).
  { unfold render, Py.getitem. rewrite Hj. run_render. reflexivity. }
  now rewrite H.
Qed.

(** Briefing data that hold the use case only. *)
Lemma render_without_justification_sample :
  result (render RefJson.repr Sample.jane (JObj [("useCase", JStr "AI")]))
  = Raised KeyError.
Proof.
  destruct (render_without_justification
              RefJson.repr Sample.jane [("useCase", JStr "AI")] eq_refl) as [H _].
  now rewrite H.
Defined.

(** X15: a use case that is not a string (a number, a list, null) is shown
    on the use case line as Python prints it, and the renderer then stops on
    an AttributeError at the reference lookup, which calls [lower] on it. *)
Theorem render_use_case_not_text
        (py_repr : json -> string) (form_data : prospect)
        (d : list (string * json)) (justification use_case : json) :
  Py.dict_get "justification" d = Some justification ->
  Py.dict_get "useCase" d = Some use_case ->
  is_text use_case = false ->
  render py_repr form_data (JObj d)
  = ([StBalloons;
      StHeader ("Pre-Call Briefing: " ++ personaName form_data ++ " at "
                  ++ accountName form_data);
      StSubheader "1. At-a-Glance Intel";
      StMarkdown (intel_markdown form_data);
      StDivider;
      StSubheader "2. The 'Why You, Why Now'";
      StMarkdown ("**✨ Justification:** *" ++ format_value py_repr justification ++ "*");
      StMarkdown ("**✨ Recommended Use Case:** " ++ py_repr use_case)],
     Raised AttributeError).
Proof.
  intros Hj Hu Ht.
  unfold render, Py.getitem. rewrite Hj, Hu.
  destruct use_case; try discriminate; run_render; reflexivity.
Qed.

(** The use case 42. *)
Lemma render_use_case_not_text_sample :
  result (render RefJson.repr Sample.jane
            (JObj [("justification", JStr "x"); ("useCase", JInt 42)]))
  = Raised AttributeError.
Proof.
  now rewrite (render_use_case_not_text
                 RefJson.repr Sample.jane
                 [("justification", JStr "x"); ("useCase", JInt 42)]
                 (JStr "x") (JInt 42) eq_refl eq_refl eq_refl).
Defined.

Lemma opener_line_without_statement (py_repr : json -> string)
      (form_data : prospect) (d : list (string * json)) :
  Py.dict_get "statement" d = None ->
  opener_line py_repr form_data (JObj d) = raise KeyError.
Proof.
  intros H. unfold opener_line, Py.getitem. now rewrite H.
Qed.

(** X16: the opening statements are shown in one piece after the loop.  When
    an opener has no statement, the loop stops on a KeyError: the openers
    before it are not shown either, nor are the discovery questions. *)
Theorem broken_opener_hides_all_openers
        (py_repr : json -> string) (form_data : prospect)
        (d : list (string * json)) (justification : json) (use_case : string)
        (before after : list json) (bad : list (string * json))
        (lines : list string) :
  Py.dict_get "justification" d = Some justification ->
  Py.dict_get "useCase" d = Some (JStr use_case) ->
  Py.dict_get "openingStatements" d = Some (JArr (before ++ JObj bad :: after)) ->
  Forall2 (fun opener line => opener_line py_repr form_data opener = ret line)
          before lines ->
  Py.dict_get "statement" bad = None ->
  render py_repr form_data (JObj d)
  = ([StBalloons;
      StHeader ("Pre-Call Briefing: " ++ personaName form_data ++ " at "
                  ++ accountName form_data);
      StSubheader "1. At-a-Glance Intel";
      StMarkdown (intel_markdown form_data);
      StDivider;
      StSubheader "2. The 'Why You, Why Now'";
      StMarkdown ("**✨ Justification:** *" ++ format_value py_repr justification ++ "*");
      StMarkdown ("**✨ Recommended Use Case:** " ++ use_case);
      StMarkdown ("**- Relevant Customer Reference:** "
                    ++ get_customer_reference use_case);
      StDivider;
      StSubheader "3. Conversation Toolkit";
      StMarkdown "##### ✨ Powerful Opening Statements"],
     Raised KeyError).
Proof.
  intros Hj Hu Ho Hl Hbad.
  unfold render, Py.getitem. rewrite Hj, Hu, Ho.
  run_render.
  rewrite (openers_loop_raises _ _ _ after _ _ KeyError "" Hl
             (opener_line_without_statement _ _ _ Hbad)).
  run_render. reflexivity.
Qed.

(** A good opener followed by one without a statement. *)
Lemma broken_opener_sample :
  result (render RefJson.repr Sample.jane (JObj Scenario.broken_opener_briefing))
  = Raised KeyError
  /\ List.length (trace (render RefJson.repr Sample.jane
                           (JObj Scenario.broken_opener_briefing))) = 12.
Proof.
  assert (H : Forall2
                (fun opener line => opener_line RefJson.repr Sample.jane opener = ret line)
                [JObj [("type", JStr "Direct"); ("statement", JStr "Hello.")]]
                ["- **Direct:** " ++ PyStr.dquote ++ "Hello." ++ PyStr.dquote ++ PyStr.nl])
    by repeat constructor.
  rewrite (broken_opener_hides_all_openers
             RefJson.repr Sample.jane Scenario.broken_opener_briefing
             (JStr "Scaling risk models") "AI risk models"
             [JObj [("type", JStr "Direct"); ("statement", JStr "Hello.")]]
             [] [("type", JStr "Casual")]
             ["- **Direct:** " ++ PyStr.dquote ++ "Hello." ++ PyStr.dquote ++ PyStr.nl]
             eq_refl eq_refl eq_refl H eq_refl).
  split; reflexivity.
Defined.

(** ** The reference lookup, in general *)

Lemma lower_char_idempotent (c : ascii) :
  PyStr.lower_char (PyStr.lower_char c) = PyStr.lower_char c.
Proof.
  destruct c as [[] [] [] [] [] [] [] []]; reflexivity.
Qed.

Lemma lower_idempotent (s : string) : PyStr.lower (PyStr.lower s) = PyStr.lower s.
Proof.
  induction s as [|c s IH]; cbn [PyStr.lower]; [reflexivity|].
  now rewrite lower_char_idempotent, IH.
Qed.

(** X17: the lookup does not depend on the case of the letters A-Z: a use
    case and its lowered form get the same sentence, and so do two use cases
    that differ in case only. *)
Theorem reference_ignores_case (use_case other : string) :
  get_customer_reference (PyStr.lower use_case) = get_customer_reference use_case
  /\ (PyStr.lower use_case = PyStr.lower other ->
      get_customer_reference use_case = get_customer_reference other).
Proof.
  unfold get_customer_reference. split.
  - now rewrite lower_idempotent.
  - now intros ->.
Qed.


(** ** The placeholders *)

Lemma contains_empty (s : string) : PyStr.contains "" s = true.
Proof. now destruct s. Qed.

Lemma replace_scan_absent (old new s : string) :
  PyStr.contains old s = false -> PyStr.replace_scan old new 0 s = s.
Proof.
  induction s as [|c s IH]; [reflexivity|].
  cbn [PyStr.contains PyStr.replace_scan]. intros H.
  apply orb_false_iff in H. destruct H as [Hp Hc].
  now rewrite Hp, (IH Hc).
Qed.

(** [replace] leaves a text without the pattern as it is. *)
Lemma replace_absent (old new s : string) :
  PyStr.contains old s = false -> PyStr.replace old new s = s.
Proof.
  destruct old as [|c old]; intros H.
  - now rewrite contains_empty in H.
  - now apply replace_scan_absent.
Qed.

(** X19: an opening statement that holds neither "[Persona Name]" nor
    "[SDR Name]" is shown as the API wrote it, whatever the persona name
    is. *)
Theorem statement_without_placeholders (form_data : prospect) (s : string) :
  PyStr.contains "[Persona Name]" s = false ->
  PyStr.contains "[SDR Name]" s = false ->
  substitute_placeholders form_data s = s.
Proof.
  intros Hp Hs. unfold substitute_placeholders.
  rewrite (replace_absent _ _ _ Hp). now apply replace_absent.
Qed.

(** A statement with a placeholder of another spelling. *)
Lemma statement_without_placeholders_sample :
  substitute_placeholders Sample.jane "Hi [persona name], welcome."
  = "Hi [persona name], welcome.".
Proof.
  apply (statement_without_placeholders Sample.jane "Hi [persona name], welcome.");
    reflexivity.
Defined.

(** ** The prompt *)

(** X20: the prompt of the request holds each of the six fields of the
    record as it was entered. *)
Theorem prompt_embeds_every_field (form_data : prospect) :
  PyStr.contains (personaName form_data) (prompt form_data) = true
  /\ PyStr.contains (title form_data) (prompt form_data) = true
  /\ PyStr.contains (accountName form_data) (prompt form_data) = true
  /\ PyStr.contains (status_str (prospect_status form_data)) (prompt form_data) = true
  /\ PyStr.contains (linkedinInfo form_data) (prompt form_data) = true
  /\ PyStr.contains (supportingInfo form_data) (prompt form_data) = true.
Proof.
  unfold prompt. repeat split.
  - do 9 apply contains_app_l. apply contains_of_prefix, prefix_app.
  - do 12 apply contains_app_l. apply contains_of_prefix, prefix_app.
  - do 15 apply contains_app_l. apply contains_of_prefix, prefix_app.
  - do 18 apply contains_app_l. apply contains_of_prefix, prefix_app.
  - do 21 apply contains_app_l. apply contains_of_prefix, prefix_app.
  - do 24 apply contains_app_l. apply contains_of_prefix, prefix_app.
Qed.

(** ** A body that is not JSON *)

(** X21: when the answer has a status outside 4xx/5xx but its body cannot be
    decoded, [response.json()] raises a RequestException: the first [except]
    clause reports a failed API call with the detail of the decoder, and the
    clause for decode failures is not reached. *)
Theorem undecodable_body_is_call_failure
        (json_decoder : string -> decoded) (py_repr : json -> string)
        (w : world) (form_data : prospect)
        (k : string) (r : response) (detail : string) :
  configured_key w = Some k ->
  server w (api_url k) (payload form_data) = Responded r ->
  http_ok r = true ->
  json_decoder (body r) = Undecodable detail ->
  call_gemini json_decoder w form_data
  = ([HttpPost (api_url k) (payload form_data);
      StError ("Error: API call failed: " ++ detail)], Returned JNull)
  /\ reported (trace (call_gemini json_decoder w form_data)) = [NetworkError]
  /\ rendered (trace (submit_handler json_decoder py_repr w form_data)) = false.
Proof.
  intros Hk Hs Hok Hd.
  assert (Hcall : call_gemini json_decoder w form_data
                  = ([HttpPost (api_url k) (payload form_data);
                      StError (api_call_failed_msg detail)], Returned JNull)).
  { unfold call_gemini.
    rewrite (st_secrets_configured _ _ Hk), try_except_ret, bind_ret_l.
    unfold requests_post. rewrite Hs, bind_emit.
    cbn [ret trace result fst snd]. rewrite bind_returned. cbn beta.
    rewrite (raise_for_status_ok _ _ Hok), bind_ret_l.
    unfold response_json. rewrite Hd. reflexivity. }
  rewrite (submit_handler_after_none _ py_repr _ _ _ Hcall), Hcall.
  split; [reflexivity|]. split; [|reflexivity].
  exact (reported_call_failed (api_url k) detail (payload form_data)).
Qed.

(** An HTML page served with status 200. *)
Lemma undecodable_body_sample :
  reported (trace (call_gemini RefJson.loads
                     (Sample.answering "k" "<html></html>") Sample.jane))
  = [NetworkError].
Proof.
  destruct (undecodable_body_is_call_failure
              RefJson.loads RefJson.repr
              (Sample.answering "k" "<html></html>") Sample.jane "k"
              {| status_code := 200; reason := "OK"; body := "<html></html>" |}
              "Expecting value"
              eq_refl eq_refl eq_refl eq_refl) as (_ & H & _).
  exact H.
Defined.
